(** * Discord Private Messenger: the interaction workflow of privmsg.js

    A shallow embedding of [src/privmsg.js]: the [InteractionManager]
    session store, the [interactionCreate] handler (commands [/help],
    [/message], [/cancel] and the four kinds of button), the message
    collector of the edit step, the fan-out send and the report.

    Modelling conventions.
    - JavaScript objects that are shared by reference (the state object
      put in the store, captured by the local [state] of a handler and by
      the closure of a collector) live in a heap; the store maps an
      operator id to a reference.
    - Calls into discord.js are recorded, in order, in a trace of
      [Effect]s.  The requests they make are taken to succeed, except
      [member.send], whose failure the source handles itself: its outcome
      is given by the interaction's [dm_open] oracle.
    - The builders of discord.js parse what they are given and throw on
      a value out of range: an empty or too long title, description,
      footer, field, label or custom id, a twenty-sixth field.  These
      checks are [embed_ok] and [row_ok].  An embed or a row the source
      builds from run-time data goes through [built] or [built_row] at
      the place where the source builds it, and the handler throws there
      when the builder does; the views built from literals pass the
      checks ([static_views_ok]).
    - A [TypeError] the source itself can raise (a property read on
      [null]) is modelled as [Throw], like the error of a builder.
    - An interaction handler runs to completion before the next event is
      taken.  The [collect] callbacks of the collectors that take one
      message run interleaved: each runs up to its next [await] before
      the next one starts, in the order of the collectors.
    - A role carries its member list as it is when the role is resolved.
    - [console.log] / [console.error] output is not recorded.

    The file has the program first (data, effects, handlers), then the
    vocabulary of the properties and a concrete scenario, then the
    properties and their proofs: first those numbered C, then, after the
    scenario has been walked through, those numbered X. *)

From Stdlib Require Import String Ascii List Arith Lia NArith Decimal DecimalString.
From stdpp Require Import gmap strings list.
Import ListNotations.
Local Open Scope string_scope.
Local Open Scope list_scope.

(** Custom ids are built by appending to a literal prefix; let [simpl] and
    [cbn] compute through the literal. *)
Arguments String.append !s1 s2 : simpl nomatch.

(** ** Strings *)

(** Template-literal rendering of a number. *)
Definition num (n : nat) : string := NilEmpty.string_of_uint (Nat.to_uint n).

Definition underscore : ascii := "_"%char.
Definition newline : string := String (ascii_of_nat 10) EmptyString.

(** [s.split('_')]: never empty; an empty [s] gives one empty piece. *)
Fixpoint split (sep : ascii) (s : string) : list string :=
  match s with
  | EmptyString => [EmptyString]
  | String c s' =>
      if Ascii.eqb c sep then EmptyString :: split sep s'
      else match split sep s' with
           | [] => [String c EmptyString]
           | piece :: rest => String c piece :: rest
           end
  end.

(** [arr.pop()] on the result of a split: the last piece. *)
Definition pop (l : list string) : string := List.last l EmptyString.

(** [s.startsWith(p)] *)
Fixpoint startsWith (s p : string) {struct p} : bool :=
  match p with
  | EmptyString => true
  | String c p' =>
      match s with
      | EmptyString => false
      | String d s' => Ascii.eqb c d && startsWith s' p'
      end
  end.

(** [arr.join(sep)] *)
Fixpoint join (sep : string) (l : list string) : string :=
  match l with
  | [] => EmptyString
  | [x] => x
  | x :: rest => x +:+ sep +:+ join sep rest
  end.

(** A string without the separator of the custom ids (Discord ids are
    decimal snowflakes). *)
Fixpoint no_underscore (s : string) : bool :=
  match s with
  | EmptyString => true
  | String c s' => negb (Ascii.eqb c underscore) && no_underscore s'
  end.

(** [s.length]: the number of UTF-16 code units of a string, which is
    held here as its UTF-8 bytes.  A code point is one unit, or two when
    it lies outside the basic plane, that is when its first byte leads a
    sequence of four. *)
Definition code_units (c : ascii) : nat :=
  let n := nat_of_ascii c in
  if (n <? 128)%nat then 1
  else if (n <? 192)%nat then 0
  else if (n <? 240)%nat then 1
  else 2.

Fixpoint js_length (s : string) : nat :=
  match s with
  | EmptyString => 0
  | String c s' => code_units c + js_length s'
  end.

(** ** discord.js data the handlers read *)

Record User := { user_id : string; user_tag : string; user_bot : bool }.

Record Member := { member_user : User; displayName : string }.

Record Role := { role_id : string; role_name : string; role_members : list Member }.

(** A rendered message is known by its id. *)
Definition Message := nat.

Inductive ButtonStyle := Primary | Success | Danger.

Record ButtonBuilder := { customId : string; label : string; style : ButtonStyle }.

Definition ActionRowBuilder := list ButtonBuilder.

Record EmbedField := { field_name : string; field_value : string; field_inline : bool }.

Record Embed := {
  color : N;
  title : string;
  description : string;
  fields : list EmbedField;
  footer : string;
  timestamp : bool
}.

Definition EmbedBuilder : Embed :=
  {| color := 0%N; title := ""; description := ""; fields := []; footer := ""; timestamp := false |}.

Definition setColor (c : N) (e : Embed) : Embed :=
  {| color := c; title := title e; description := description e; fields := fields e;
     footer := footer e; timestamp := timestamp e |}.
Definition setTitle (t : string) (e : Embed) : Embed :=
  {| color := color e; title := t; description := description e; fields := fields e;
     footer := footer e; timestamp := timestamp e |}.
Definition setDescription (d : string) (e : Embed) : Embed :=
  {| color := color e; title := title e; description := d; fields := fields e;
     footer := footer e; timestamp := timestamp e |}.
Definition addFields (fs : list EmbedField) (e : Embed) : Embed :=
  {| color := color e; title := title e; description := description e;
     fields := fields e ++ fs; footer := footer e; timestamp := timestamp e |}.
Definition setFooter (f : string) (e : Embed) : Embed :=
  {| color := color e; title := title e; description := description e; fields := fields e;
     footer := f; timestamp := timestamp e |}.
Definition setTimestamp (e : Embed) : Embed :=
  {| color := color e; title := title e; description := description e; fields := fields e;
     footer := footer e; timestamp := true |}.

(** Builder chains read left to right, as in the source. *)
Notation "e '.>' f" := (f e) (at level 45, left associativity, only parsing).

(** *** What the builders refuse

    The setters above only store their argument.  In discord.js each of
    them first parses it and throws when it is out of range; the
    predicates below are those checks, one per setter, on lengths as
    JavaScript counts them.  [addFields] also refuses to go beyond 25
    fields in all.  Every embed of [privmsg.js] comes from one chain that
    sets colour, title, description and footer once and may add fields;
    such a chain throws exactly when the embed it describes fails
    [embed_ok].  The same for a button: [setCustomId] and [setLabel]. *)
Definition within_length (lo hi : nat) (s : string) : bool :=
  (lo <=? js_length s)%nat && (js_length s <=? hi)%nat.

Definition setColor_ok (c : N) : bool := (c <=? 0xFFFFFF)%N.
Definition setTitle_ok (t : string) : bool := within_length 1 256 t.
Definition setDescription_ok (d : string) : bool := within_length 1 4096 d.
Definition setFooter_ok (f : string) : bool := within_length 1 2048 f.
Definition field_ok (f : EmbedField) : bool :=
  within_length 1 256 (field_name f) && within_length 1 1024 (field_value f).
Definition addFields_ok (fs : list EmbedField) : bool :=
  (length fs <=? 25)%nat && forallb field_ok fs.

Definition embed_ok (e : Embed) : bool :=
  setColor_ok (color e) && setTitle_ok (title e) && setDescription_ok (description e)
  && addFields_ok (fields e) && setFooter_ok (footer e).

Definition setCustomId_ok (id : string) : bool := within_length 1 100 id.
Definition setLabel_ok (l : string) : bool := within_length 1 80 l.

Definition button_ok (b : ButtonBuilder) : bool :=
  setCustomId_ok (customId b) && setLabel_ok (label b).

(** [addComponents] takes any number of buttons. *)
Definition row_ok (row : ActionRowBuilder) : bool := forallb button_ok row.

(** The options object of [reply], [editReply] and [message.edit]; a key
    that is not passed is [None]. *)
Record Payload := {
  p_content : option string;
  p_embeds : option (list Embed);
  p_components : option (list ActionRowBuilder);
  p_ephemeral : bool;
  p_fetchReply : bool
}.

Definition payload : Payload :=
  {| p_content := None; p_embeds := None; p_components := None;
     p_ephemeral := false; p_fetchReply := false |}.
Definition with_content (c : string) (p : Payload) : Payload :=
  {| p_content := Some c; p_embeds := p_embeds p; p_components := p_components p;
     p_ephemeral := p_ephemeral p; p_fetchReply := p_fetchReply p |}.
Definition with_embeds (es : list Embed) (p : Payload) : Payload :=
  {| p_content := p_content p; p_embeds := Some es; p_components := p_components p;
     p_ephemeral := p_ephemeral p; p_fetchReply := p_fetchReply p |}.
Definition with_components (cs : list ActionRowBuilder) (p : Payload) : Payload :=
  {| p_content := p_content p; p_embeds := p_embeds p; p_components := Some cs;
     p_ephemeral := p_ephemeral p; p_fetchReply := p_fetchReply p |}.
Definition with_ephemeral (p : Payload) : Payload :=
  {| p_content := p_content p; p_embeds := p_embeds p; p_components := p_components p;
     p_ephemeral := true; p_fetchReply := p_fetchReply p |}.
Definition with_fetchReply (p : Payload) : Payload :=
  {| p_content := p_content p; p_embeds := p_embeds p; p_components := p_components p;
     p_ephemeral := p_ephemeral p; p_fetchReply := true |}.

(** ** Events *)

Inductive InteractionType :=
| ChatInputCommand (commandName : string) (content : string)
| ButtonPress (customId : string)
| OtherInteraction.

Record Interaction := {
  i_type : InteractionType;
  i_user : User;                      (* interaction.user *)
  i_member : Member;                  (* interaction.member *)
  i_member_roles : list string;       (* interaction.member.roles.cache, as role ids *)
  i_guild_roles : list Role;          (* interaction.guild.roles.cache after members.fetch() *)
  i_channel : string;                 (* interaction.channel *)
  i_reply_message : Message;          (* the message a reply to this interaction creates *)
  dm_open : Member -> bool            (* does member.send resolve (true) or reject (false)? *)
}.

(** A message posted in a channel. *)
Record Msg := {
  msg_id : Message;
  msg_author : string;
  msg_channel : string;
  msg_content : string
}.

(** ** The session object and the world *)

(** The object literal stored by [/message]. *)
Record InteractionState := {
  currentMessage : string;
  previewMessage : option Message;
  selectedRole : option Role;
  failedUsers : list string;
  successfulUsers : list string
}.

Definition set_currentMessage (m : string) (s : InteractionState) : InteractionState :=
  {| currentMessage := m; previewMessage := previewMessage s; selectedRole := selectedRole s;
     failedUsers := failedUsers s; successfulUsers := successfulUsers s |}.
Definition set_previewMessage (p : option Message) (s : InteractionState) : InteractionState :=
  {| currentMessage := currentMessage s; previewMessage := p; selectedRole := selectedRole s;
     failedUsers := failedUsers s; successfulUsers := successfulUsers s |}.
Definition set_selectedRole (r : option Role) (s : InteractionState) : InteractionState :=
  {| currentMessage := currentMessage s; previewMessage := previewMessage s; selectedRole := r;
     failedUsers := failedUsers s; successfulUsers := successfulUsers s |}.
Definition set_failedUsers (l : list string) (s : InteractionState) : InteractionState :=
  {| currentMessage := currentMessage s; previewMessage := previewMessage s;
     selectedRole := selectedRole s; failedUsers := l; successfulUsers := successfulUsers s |}.
Definition set_successfulUsers (l : list string) (s : InteractionState) : InteractionState :=
  {| currentMessage := currentMessage s; previewMessage := previewMessage s;
     selectedRole := selectedRole s; failedUsers := failedUsers s; successfulUsers := l |}.

(** A reference to a state object in the heap. *)
Definition ref := nat.

(** A pending collector of [channel.createMessageCollector({ filter, max: 1 })]:
    the channel it listens on, the [authorId] its filter compares with and
    the [state] object its [collect] callback closes over. *)
Record Collector := {
  col_channel : string;
  col_authorId : string;
  col_state : ref
}.

Record World := {
  interactionState : gmap string ref;   (* interactionManager.interactionState *)
  heap : list InteractionState;         (* the state objects ever created *)
  collectors : list Collector           (* collectors that have not ended *)
}.

Definition initial_world : World :=
  {| interactionState := ∅; heap := []; collectors := [] |}.

(** ** Effects and the handler monad *)

(** What a [setTimeout] callback will do when it fires. *)
Inductive Timer :=
| DeleteReply                       (* interaction.deleteReply() *)
| DeleteMessage (m : Message).      (* message.delete() *)

(** The calls into discord.js and the runtime, in the order they are made. *)
Inductive Effect :=
| Reply (p : Payload)                               (* interaction.reply *)
| DeferReply                                        (* interaction.deferReply *)
| EditReply (p : Payload)                           (* interaction.editReply *)
| DeferUpdate                                       (* interaction.deferUpdate *)
| MembersFetch                                      (* guild.members.fetch *)
| RolesFetch (roleId : string)                      (* guild.roles.fetch *)
| MessageEdit (m : Message) (p : Payload)           (* message.edit *)
| MessageDelete (m : Message)                       (* message.delete *)
| MemberSend (member : Member) (p : Payload)        (* member.send *)
| CreateMessageCollector (channel authorId : string)
| CollectorStop                                     (* collector.stop *)
| SetTimeout (t : Timer) (ms : N)
| UnhandledRejection.                               (* a collect callback that threw *)

(** The state a handler threads: the world, the trace so far and the
    [deferred] / [replied] flags of the interaction being handled. *)
Record HState := {
  h_world : World;
  h_trace : list Effect;
  h_deferred : bool;
  h_replied : bool
}.

(** How a piece of handler code ends: it falls through to the next
    statement, executes [return], or throws. *)
Inductive Flow (A : Type) :=
| Next (a : A)
| Return
| Throw.
Arguments Next {A} a.
Arguments Return {A}.
Arguments Throw {A}.

Definition Handler (A : Type) : Type := HState -> Flow A * HState.

Definition pure {A} (a : A) : Handler A := fun h => (Next a, h).

Definition bind {A B} (m : Handler A) (k : A -> Handler B) : Handler B :=
  fun h =>
    match m h with
    | (Next a, h') => k a h'
    | (Return, h') => (Return, h')
    | (Throw, h') => (Throw, h')
    end.

Notation "'let*' x ':=' m 'in' k" := (bind m (fun x => k))
  (at level 10, x name, m at level 100, k at level 200).
Notation "m '>>' k" := (bind m (fun _ => k))
  (at level 90, right associativity).

Definition return_ {A} : Handler A := fun h => (Return, h).
Definition throw {A} : Handler A := fun h => (Throw, h).

(** [if (b) { m }] *)
Definition when (b : bool) (m : Handler unit) : Handler unit :=
  if b then m else pure tt.

Definition emit (e : Effect) : Handler unit :=
  fun h => (Next tt, {| h_world := h_world h; h_trace := h_trace h ++ [e];
                        h_deferred := h_deferred h; h_replied := h_replied h |}).

Definition set_flags (d r : bool) : Handler unit :=
  fun h => (Next tt, {| h_world := h_world h; h_trace := h_trace h;
                        h_deferred := d || h_deferred h; h_replied := r || h_replied h |}).

Definition reply (p : Payload) : Handler unit := emit (Reply p) >> set_flags false true.
Definition deferReply : Handler unit := emit DeferReply >> set_flags true false.
Definition deferUpdate : Handler unit := emit DeferUpdate >> set_flags true false.
Definition editReply (p : Payload) : Handler unit := emit (EditReply p) >> set_flags false true.

Definition get_world : Handler World := fun h => (Next (h_world h), h).
Definition put_world (w : World) : Handler unit :=
  fun h => (Next tt, {| h_world := w; h_trace := h_trace h;
                        h_deferred := h_deferred h; h_replied := h_replied h |}).

(** *** InteractionManager *)

(** [setState(userId, state)], where [state] is a fresh object literal. *)
Definition setState (userId : string) (state : InteractionState) : Handler unit :=
  let* w := get_world in
  put_world {| interactionState := <[userId := length (heap w)]> (interactionState w);
               heap := heap w ++ [state];
               collectors := collectors w |}.

(** [getState(userId)]: the stored reference, or [undefined]. *)
Definition getState (userId : string) : Handler (option ref) :=
  let* w := get_world in pure (interactionState w !! userId).

Definition deleteState (userId : string) : Handler unit :=
  let* w := get_world in
  put_world {| interactionState := delete userId (interactionState w);
               heap := heap w;
               collectors := collectors w |}.

Definition hasState (userId : string) : Handler bool :=
  let* w := get_world in pure (bool_decide (is_Some (interactionState w !! userId))).

(** Reading the fields of the object behind a reference. *)
Definition read (r : ref) : Handler InteractionState :=
  let* w := get_world in
  match heap w !! r with
  | Some s => pure s
  | None => throw
  end.

(** Assigning to a field of the object behind a reference. *)
Definition assign (r : ref) (f : InteractionState -> InteractionState) : Handler unit :=
  let* w := get_world in
  match heap w !! r with
  | Some s => put_world {| interactionState := interactionState w;
                           heap := <[r := f s]> (heap w);
                           collectors := collectors w |}
  | None => throw
  end.

(** A method call or property read on a value that may be [null] or
    [undefined]: a [TypeError] when it is. *)
Definition nonnull {A} (o : option A) : Handler A :=
  match o with
  | Some a => pure a
  | None => throw
  end.

(** Building an embed, or a row of buttons: the value when the builders
    accept it, their error when they do not. *)
Definition built (e : Embed) : Handler Embed :=
  if embed_ok e then pure e else throw.

Definition built_row (row : ActionRowBuilder) : Handler ActionRowBuilder :=
  if row_ok row then pure row else throw.

Definition createMessageCollector (channel authorId : string) (state : ref) : Handler unit :=
  emit (CreateMessageCollector channel authorId) >>
  let* w := get_world in
  put_world {| interactionState := interactionState w;
               heap := heap w;
               collectors := collectors w ++
                 [{| col_channel := channel; col_authorId := authorId; col_state := state |}] |}.

(** ** The fan-out send and its report (the [confirm_send] handler) *)

Record SendResult := { member : Member; success : bool }.

(** The embed of the direct message, as data; [sendOne] checks it with
    [embed_ok] inside its [try]. *)
Definition importantMessageEmbed (interaction : Interaction) (currentMessage : string)
    (member : Member) : Embed :=
  EmbedBuilder
    .> setColor 0x00ff00
    .> setTitle "📢 Important Message"
    .> setDescription ("Hello, <@" +:+ user_id (member_user member) +:+ ">!" +:+ newline
                       +:+ newline +:+ currentMessage)
    .> setFooter ("Sent by: " +:+ displayName (i_member interaction)).

(** The callback mapped over [selectedRole.members]: a bot is answered
    without a send; otherwise the embed is built and sent inside a
    [try], so that an embed the builder refuses and a send that is
    rejected are both caught and answered with a failure. *)
Definition sendOne (interaction : Interaction) (currentMessage : string) (member : Member)
    : Handler SendResult :=
  if user_bot (member_user member) then pure {| member := member; success := false |}
  else
    let embed := importantMessageEmbed interaction currentMessage member in
    if embed_ok embed
    then
      emit (MemberSend member (payload .> with_embeds [embed])) >>
      if dm_open interaction member
      then pure {| member := member; success := true |}
      else pure {| member := member; success := false |}
    else pure {| member := member; success := false |}.

(** [await Promise.all(arr.map(f))]: the callbacks start in array order and
    the results come back in array order. *)
Fixpoint Promise_all {A B} (f : A -> Handler B) (arr : list A) : Handler (list B) :=
  match arr with
  | [] => pure []
  | a :: rest =>
      let* b := f a in
      let* bs := Promise_all f rest in
      pure (b :: bs)
  end.

Record Tally := {
  successCount : nat;
  tally_failedUsers : list string;
  tally_successfulUsers : list string
}.

(** The [sendMessages.forEach] loop over the outcomes. *)
Definition tally (sendMessages : list SendResult) : Tally :=
  fold_left
    (fun acc result =>
       if success result
       then {| successCount := S (successCount acc);
               tally_failedUsers := tally_failedUsers acc;
               tally_successfulUsers :=
                 tally_successfulUsers acc ++ [user_tag (member_user (member result))] |}
       else {| successCount := successCount acc;
               tally_failedUsers :=
                 tally_failedUsers acc ++ [user_tag (member_user (member result))];
               tally_successfulUsers := tally_successfulUsers acc |})
    sendMessages
    {| successCount := 0; tally_failedUsers := []; tally_successfulUsers := [] |}.

(** [Math.ceil(n / size)] for a positive [size]. *)
Definition ceil_div (n size : nat) : nat :=
  n / size + (if (n mod size =? 0)%nat then 0 else 1).

(** [arr.slice(start, end)] for [start <= end]. *)
Definition slice {A} (start end_ : nat) (arr : list A) : list A :=
  take (end_ - start) (drop start arr).

Definition chunkArray {A} (arr : list A) (size : nat) : list (list A) :=
  map (fun i => slice (i * size) (i * size + size) arr)
      (seq 0 (ceil_div (length arr) size)).

Definition usersPerField : nat := 25.

Definition failedFieldTitle : string := "🚨 Users who didn't receive the message".

(** The [failedUserChunks.forEach] loop: one embed field per chunk. *)
Definition failedUserFields (failedUsers : list string) : list EmbedField :=
  let failedUserChunks := chunkArray failedUsers usersPerField in
  imap (fun index chunk =>
          let fieldName :=
            if (1 <? length failedUserChunks)%nat
            then failedFieldTitle +:+ " (" +:+ num (index + 1) +:+ "/"
                 +:+ num (length failedUserChunks) +:+ ")"
            else failedFieldTitle in
          {| field_name := fieldName;
             field_value := join newline (map (fun user => "• " +:+ user) chunk);
             field_inline := false |})
       failedUserChunks.

(** The report, as data: the embed the chain and the loop describe.  The
    confirm handler builds it through [built]: a draft [addFields]
    refuses as the value of "Sent Message" (empty, or more than 1024
    characters), a chunk over 1024 characters or a twenty-sixth field
    makes the handler throw. *)
Definition resultEmbed (currentMessage : string) (selectedRole : Role) (t : Tally) : Embed :=
  let base :=
    EmbedBuilder
      .> setColor 0x00ff00
      .> setTitle "🚁 Message Sent"
      .> setDescription
           (if (0 <? length (tally_failedUsers t))%nat
            then "✅ The message was sent to **" +:+ num (successCount t)
                 +:+ "** members of the **" +:+ role_name selectedRole +:+ "** role." +:+ newline
                 +:+ "🚨 Unable to send to **" +:+ num (length (tally_failedUsers t))
                 +:+ "** members, as they have disabled private messages!"
            else "✅ All messages were delivered successfully!")
      .> addFields [{| field_name := "📜 Sent Message"; field_value := currentMessage;
                       field_inline := false |}]
      .> setFooter "🔧 Developed by @felipecaldass" in
  if (0 <? length (tally_failedUsers t))%nat
  then base .> addFields (failedUserFields (tally_failedUsers t))
  else base.

(** ** Views

    The embeds and rows of the handlers, as data.  Those that depend on
    run-time data ([messagePreviewEmbed], [updatedPreviewEmbed] and the
    two rows of buttons) are built by the handlers through [built] and
    [built_row]. *)

Definition notice (title_ description_ footer_ : string) : Embed :=
  EmbedBuilder .> setColor 0xff0000 .> setTitle title_ .> setDescription description_
    .> setFooter footer_.

Definition helpEmbed : Embed :=
  EmbedBuilder
    .> setColor 0x2ecc71
    .> setTitle "📚 **Command List**"
    .> setDescription "Here are all the commands available in the bot:"
    .> addFields
         [ {| field_name := "📝 **/message**";
              field_value := "Sends a message to a specific role (staff only)";
              field_inline := false |};
           {| field_name := "❌ **/cancel**";
              field_value := "Cancels an active mass message interaction (staff only)";
              field_inline := false |} ]
    .> setFooter "🔧 Developed by @felipecaldass | Use commands wisely!"
    .> setTimestamp.

Definition activeInteractionEmbed : Embed :=
  notice "⚠️ Active Interaction"
    "You already have an active interaction. Please finish the current interaction before starting another. You can end the interaction manually with the **/cancel** command"
    "This message will be deleted in 15 seconds.".

Definition permissionDeniedEmbed : Embed :=
  notice "❌ Permission Denied"
    "You do not have permission to use this command. Only support staff can use it."
    "This message will be deleted in 15 seconds.".

Definition noRolesFoundEmbed : Embed :=
  notice "⚠️ No Roles Found"
    "There are no roles with at least 2 members on the server."
    "This message will be deleted in 15 seconds.".

Definition selectRoleEmbed : Embed :=
  EmbedBuilder
    .> setColor 0x00ff00
    .> setTitle "📜 Select a Role"
    .> setDescription "Choose the role you want to send the message to. Only roles with at least 2 members are listed."
    .> setFooter "🔧 Developed by @felipecaldass".

Definition noPermissionEmbed : Embed :=
  notice "❌ No Permission"
    "You do not have permission to use this command. Only support team members can use it."
    "This message will be deleted in 10 seconds".

Definition noActiveInteractionEmbed : Embed :=
  notice "⚠️ No Active Interaction"
    "You do not have any active interactions to cancel."
    "This message will be deleted in 15 seconds.".

Definition interactionCancelledEmbed : Embed :=
  notice "✅ Interaction Cancelled"
    "The interaction was cancelled with success. This message will be deleted in 15 seconds."
    "This message will be removed soon.".

Definition interactionNotFoundEmbed : Embed :=
  notice "⚠️ Interaction Not Found"
    "Unable to process your interaction. Please try again."
    "This message will be deleted in 15 seconds.".

Definition errorProcessingEmbed : Embed :=
  notice "⚠️ Error Processing"
    "An error occurred while processing your request. Please try again later."
    "This message will be deleted in 15 seconds.".

Definition manuallyCancelledText : string := "❌ Interaction manually cancelled with success.".
Definition roleNotFoundText : string := "⚠️ The selected role was not found. Please try again.".
Definition noRoleSelectedText : string := "⚠️ No role was selected to send the message.".

Definition messagePreviewEmbed (role : Role) (currentMessage : string) : Embed :=
  EmbedBuilder
    .> setColor 0x00ff00
    .> setTitle "🛠 Message Preview"
    .> setDescription ("You selected the role: **" +:+ role_name role +:+ "**" +:+ newline
                       +:+ newline +:+ "📜 **Message**: " +:+ currentMessage)
    .> setFooter "🔧 Developed by @felipecaldass".

Definition editingMessageEmbed : Embed :=
  EmbedBuilder
    .> setColor 0xffa500
    .> setTitle "✏️ Editing Message"
    .> setDescription "Please enter the new message below."
    .> setFooter "🔧 Developed by @felipecaldass".

Definition updatedPreviewEmbed (content : string) (role : Role) : Embed :=
  EmbedBuilder
    .> setColor 0x00ff00
    .> setTitle "📚 Updated Preview"
    .> setDescription ("📜 **Message**: " +:+ content +:+ newline +:+ newline
                       +:+ "Please select one of the options below." +:+ newline +:+ newline
                       +:+ "This role has **" +:+ num (length (role_members role))
                       +:+ " members**.")
    .> setFooter "🔧 Developed by @felipecaldass".

(** The confirm / edit / cancel row of the preview, as data; the handlers
    build it through [built_row]. *)
Definition previewButtons (authorId : string) (role : Role) : ActionRowBuilder :=
  [ {| customId := "confirm_send_" +:+ authorId;
       label := "✅ Confirm Send (" +:+ num (length (role_members role)) +:+ " members)";
       style := Success |};
    {| customId := "edit_message_" +:+ authorId;
       label := "✏️ Edit Message";
       style := Primary |};
    {| customId := "cancel_send_" +:+ authorId;
       label := "❌ Cancel";
       style := Danger |} ].

(** One button per listed role, as data; [/message] builds the row
    through [built_row], so that a role name [setLabel] refuses (more
    than 80 characters) makes the handler throw. *)
Definition roleButtons (authorId : string) (roles : list Role) : ActionRowBuilder :=
  map (fun role =>
         {| customId := "select_role_" +:+ role_id role +:+ "_" +:+ authorId;
            label := role_name role;
            style := Primary |})
      roles.

(** ** The [interactionCreate] handler *)

Section Bot.

(** [process.env.CARGO_SUPORTE_ID]: the role that may use [/message] and
    [/cancel]. *)
Variable CARGO_SUPORTE_ID : string.

Definition isCommand (interaction : Interaction) (name : string) : bool :=
  match i_type interaction with
  | ChatInputCommand commandName _ => String.eqb commandName name
  | _ => false
  end.

(** [interaction.member.roles.cache.has(CARGO_SUPORTE_ID)] *)
Definition hasSupportRole (interaction : Interaction) : bool :=
  existsb (String.eqb CARGO_SUPORTE_ID) (i_member_roles interaction).

Definition authorId_of (interaction : Interaction) : string := user_id (i_user interaction).

Definition help_command (interaction : Interaction) : Handler unit :=
  reply (payload .> with_embeds [helpEmbed] .> with_ephemeral) >>
  return_.

Definition message_command (interaction : Interaction) (content : string) : Handler unit :=
  let authorId := authorId_of interaction in
  let* active := hasState authorId in
  when active
    (reply (payload .> with_embeds [activeInteractionEmbed] .> with_ephemeral) >>
     return_) >>
  when (negb (hasSupportRole interaction))
    (reply (payload .> with_embeds [permissionDeniedEmbed] .> with_ephemeral) >>
     return_) >>
  setState authorId
    {| currentMessage := content; previewMessage := None; selectedRole := None;
       failedUsers := []; successfulUsers := [] |} >>
  emit MembersFetch >>
  let roles := List.filter (fun role => 2 <=? length (role_members role))%nat
                 (i_guild_roles interaction) in
  when (length roles =? 0)%nat
    (reply (payload .> with_embeds [noRolesFoundEmbed] .> with_ephemeral) >>
     deleteState authorId >>
     return_) >>
  let* buttons := built_row (roleButtons authorId roles) in
  deferReply >>
  editReply (payload .> with_embeds [selectRoleEmbed] .> with_components [buttons]) >>
  let preview := i_reply_message interaction in
  let* state := getState authorId in
  let* state := nonnull state in
  assign state (set_previewMessage (Some preview)).

Definition cancel_command (interaction : Interaction) : Handler unit :=
  let authorId := authorId_of interaction in
  when (negb (hasSupportRole interaction))
    (reply (payload .> with_embeds [noPermissionEmbed] .> with_ephemeral) >>
     emit (SetTimeout DeleteReply 10000%N) >>
     return_) >>
  let* active := hasState authorId in
  when (negb active)
    (reply (payload .> with_embeds [noActiveInteractionEmbed] .> with_ephemeral) >>
     return_) >>
  let* state := getState authorId in
  let* state := nonnull state in
  let* s := read state in
  match previewMessage s with
  | Some previewMessage =>
      emit (MessageEdit previewMessage
              (payload .> with_content manuallyCancelledText .> with_embeds []
                       .> with_components [])) >>
      emit (SetTimeout (DeleteMessage previewMessage) 15000%N)
  | None => pure tt
  end >>
  deleteState authorId >>
  deferReply >>
  editReply (payload .> with_embeds [interactionCancelledEmbed] .> with_fetchReply) >>
  emit (SetTimeout (DeleteMessage (i_reply_message interaction)) 15000%N).

Definition select_role (interaction : Interaction) (customId : string) (state : ref)
    : Handler unit :=
  let authorId := authorId_of interaction in
  let roleId := default EmptyString (split underscore customId !! 2) in
  emit (RolesFetch roleId) >>
  match List.find (fun role => String.eqb (role_id role) roleId) (i_guild_roles interaction) with
  | None =>
      let* s := read state in
      let* previewMessage := nonnull (previewMessage s) in
      emit (MessageEdit previewMessage
              (payload .> with_content roleNotFoundText .> with_embeds []
                       .> with_components [])) >>
      deleteState authorId >>
      return_
  | Some role =>
      assign state (set_selectedRole (Some role)) >>
      let* s := read state in
      let* embed := built (messagePreviewEmbed role (currentMessage s)) in
      let* buttons := built_row (previewButtons authorId role) in
      deferUpdate >>
      let* previewMessage := nonnull (previewMessage s) in
      emit (MessageEdit previewMessage
              (payload .> with_embeds [embed] .> with_components [buttons]))
  end.

Definition confirm_send (interaction : Interaction) (state : ref) : Handler unit :=
  let authorId := authorId_of interaction in
  let* s := read state in
  let currentMessage := currentMessage s in
  match selectedRole s with
  | None =>
      deferUpdate >>
      let* previewMessage := nonnull (previewMessage s) in
      emit (MessageEdit previewMessage
              (payload .> with_content noRoleSelectedText .> with_embeds []
                       .> with_components [])) >>
      deleteState authorId >>
      return_
  | Some selectedRole =>
      deferUpdate >>
      let* sendMessages :=
        Promise_all (sendOne interaction currentMessage) (role_members selectedRole) in
      let t := tally sendMessages in
      assign state (set_failedUsers (tally_failedUsers t)) >>
      assign state (set_successfulUsers (tally_successfulUsers t)) >>
      let* report := built (resultEmbed currentMessage selectedRole t) in
      let* previewMessage := nonnull (previewMessage s) in
      emit (MessageEdit previewMessage
              (payload .> with_content EmptyString
                       .> with_embeds [report]
                       .> with_components [])) >>
      deleteState authorId
  end.

Definition edit_message (interaction : Interaction) (state : ref) : Handler unit :=
  let authorId := authorId_of interaction in
  deferUpdate >>
  let* s := read state in
  let* previewMessage := nonnull (previewMessage s) in
  emit (MessageEdit previewMessage
          (payload .> with_embeds [editingMessageEmbed] .> with_components [])) >>
  createMessageCollector (i_channel interaction) authorId state.

Definition cancel_send (interaction : Interaction) (state : ref) : Handler unit :=
  let authorId := authorId_of interaction in
  deferUpdate >>
  deleteState authorId >>
  let* s := read state in
  let* previewMessage := nonnull (previewMessage s) in
  emit (MessageEdit previewMessage
          (payload .> with_content EmptyString .> with_embeds [interactionCancelledEmbed]
                   .> with_components [] .> with_fetchReply)) >>
  emit (SetTimeout (DeleteMessage previewMessage) 15000%N).

Definition button (interaction : Interaction) (customId : string) : Handler unit :=
  let authorId := authorId_of interaction in
  let authorIdFromCustomId := pop (split underscore customId) in
  when (negb (String.eqb authorId authorIdFromCustomId)) return_ >>
  let* state := getState authorId in
  match state with
  | None =>
      reply (payload .> with_embeds [interactionNotFoundEmbed] .> with_ephemeral) >>
      return_
  | Some state =>
      when (startsWith customId "select_role_") (select_role interaction customId state) >>
      when (startsWith customId "confirm_send_") (confirm_send interaction state) >>
      when (startsWith customId "edit_message_") (edit_message interaction state) >>
      when (startsWith customId "cancel_send_") (cancel_send interaction state)
  end.

(** The body of the [try] block. *)
Definition interaction_body (interaction : Interaction) : Handler unit :=
  when (isCommand interaction "help") (help_command interaction) >>
  when (isCommand interaction "message")
    (match i_type interaction with
     | ChatInputCommand _ content => message_command interaction content
     | _ => pure tt
     end) >>
  when (isCommand interaction "cancel") (cancel_command interaction) >>
  match i_type interaction with
  | ButtonPress customId => button interaction customId
  | _ => pure tt
  end.

(** The [catch] block: a generic notice unless the interaction was already
    answered; the store is not touched. *)
Definition interaction_catch (interaction : Interaction) : Handler unit :=
  fun h =>
    if negb (h_deferred h) && negb (h_replied h)
    then (reply (payload .> with_embeds [errorProcessingEmbed] .> with_ephemeral
                         .> with_fetchReply) >>
          emit (SetTimeout (DeleteMessage (i_reply_message interaction)) 15000%N)) h
    else (Next tt, h).

(** What one run of the handler leaves behind. *)
Record Outcome := {
  out_world : World;
  out_trace : list Effect;
  out_threw : bool            (* did the [try] block throw? *)
}.

Definition start (w : World) : HState :=
  {| h_world := w; h_trace := []; h_deferred := false; h_replied := false |}.

Definition on_interactionCreate (interaction : Interaction) (w : World) : Outcome :=
  match interaction_body interaction (start w) with
  | (Throw, h) =>
      let h' := snd (interaction_catch interaction h) in
      {| out_world := h_world h'; out_trace := h_trace h'; out_threw := true |}
  | (_, h) => {| out_world := h_world h; out_trace := h_trace h; out_threw := false |}
  end.

(** ** The message collector of the edit step *)

(** The [collect] callback, for the collector [c] and the message [msg],
    in the three stretches its two [await]s cut it into.  The first one
    ends with the call of [msg.delete()]; what it hands on is the
    collector and the options of the re-rendered preview. *)
Definition on_collect_begin (msg : Msg) (c : Collector) : Handler (Collector * Payload) :=
  let authorId := col_authorId c in
  let state := col_state c in
  assign state (set_currentMessage (msg_content msg)) >>
  let* s := read state in
  let* selectedRole := nonnull (selectedRole s) in
  let* updatedEmbed := built (updatedPreviewEmbed (msg_content msg) selectedRole) in
  let* buttons := built_row (previewButtons authorId selectedRole) in
  emit (MessageDelete (msg_id msg)) >>
  pure (c, payload .> with_embeds [updatedEmbed] .> with_components [buttons]).

(** After [await msg.delete()]: the call of [state.previewMessage.edit]. *)
Definition on_collect_edit (running : Collector * Payload) : Handler Collector :=
  let (c, options) := running in
  let* s := read (col_state c) in
  let* previewMessage := nonnull (previewMessage s) in
  emit (MessageEdit previewMessage options) >>
  pure c.

(** After [await state.previewMessage.edit(...)]. *)
Definition on_collect_end (c : Collector) : Handler unit :=
  emit CollectorStop.

(** Does the collector take this message?  It listens on one channel and
    its filter is [msg.author.id === authorId]. *)
Definition collects (msg : Msg) (c : Collector) : bool :=
  String.eqb (msg_channel msg) (col_channel c) && String.eqb (msg_author msg) (col_authorId c).

(** Where one stretch of a callback leaves the run: a callback that
    falls through goes on to the next round with what it hands over; one
    that throws is an unhandled rejection and is out. *)
Definition handed_over {B} (r : Flow B * HState) : list B :=
  match r.1 with
  | Next b => [b]
  | _ => []
  end.

Definition settled {B} (r : Flow B * HState) : HState :=
  match r.1 with
  | Throw => (emit UnhandledRejection r.2).2
  | _ => r.2
  end.

(** One stretch of every callback that is still running, in order. *)
Fixpoint round {A B} (f : A -> Handler B) (running : list A) (h : HState)
    : list B * HState :=
  match running with
  | [] => ([], h)
  | a :: rest =>
      let r := f a h in
      let rest' := round f rest (settled r) in
      (handed_over r ++ rest'.1, rest'.2)
  end.

(** A message arrives: every pending collector that takes it ends
    ([max: 1]) and its callback runs; the others stay pending. *)
Definition on_messageCreate (msg : Msg) (w : World) : Outcome :=
  let taking := List.filter (collects msg) (collectors w) in
  let pending := List.filter (fun c => negb (collects msg c)) (collectors w) in
  let w' := {| interactionState := interactionState w; heap := heap w;
               collectors := pending |} in
  let begun := round (on_collect_begin msg) taking (start w') in
  let edited := round on_collect_edit begun.1 begun.2 in
  let ended := round on_collect_end edited.1 edited.2 in
  {| out_world := h_world ended.2; out_trace := h_trace ended.2; out_threw := false |}.

(** ** Runs *)

Inductive Event :=
| InteractionCreate (interaction : Interaction)
| MessageCreate (msg : Msg).

Definition step (w : World) (e : Event) : Outcome :=
  match e with
  | InteractionCreate interaction => on_interactionCreate interaction w
  | MessageCreate msg => on_messageCreate msg w
  end.

(** The world after a sequence of events. *)
Definition run (w : World) (es : list Event) : World :=
  fold_left (fun w e => out_world (step w e)) es w.

(** Every effect of a sequence of events, in order. *)
Fixpoint run_trace (w : World) (es : list Event) : list Effect :=
  match es with
  | [] => []
  | e :: rest => out_trace (step w e) ++ run_trace (out_world (step w e)) rest
  end.

(** ** The vocabulary of the properties *)

(** The operator [authorId] has the session object [s], at reference [r]. *)
Definition session_at (w : World) (authorId : string) (r : ref) (s : InteractionState) : Prop :=
  interactionState w !! authorId = Some r /\ heap w !! r = Some s.

Definition no_session (w : World) (authorId : string) : Prop :=
  interactionState w !! authorId = None.

Definition is_cancel_command (interaction : Interaction) : Prop :=
  exists content, i_type interaction = ChatInputCommand "cancel" content.

Definition is_cancel_button (interaction : Interaction) : Prop :=
  i_type interaction = ButtonPress ("cancel_send_" +:+ authorId_of interaction).

(** A cancellation the handler acts on: [/cancel] from a holder of the
    support role, or the operator's own cancel button. *)
Definition cancels (interaction : Interaction) : Prop :=
  (is_cancel_command interaction /\ hasSupportRole interaction = true) \/
  is_cancel_button interaction.

(** The world with the operator's entry removed from the store. *)
Definition without_session (authorId : string) (w : World) : World :=
  {| interactionState := delete authorId (interactionState w);
     heap := heap w;
     collectors := collectors w |}.

(** The notice the operator gets when there is no session to act on. *)
Definition no_session_notice (interaction : Interaction) : Effect :=
  match i_type interaction with
  | ChatInputCommand _ _ =>
      Reply (payload .> with_embeds [noActiveInteractionEmbed] .> with_ephemeral)
  | _ => Reply (payload .> with_embeds [interactionNotFoundEmbed] .> with_ephemeral)
  end.

Definition add_trace (es : list Effect) (h : HState) : HState :=
  {| h_world := h_world h; h_trace := h_trace h ++ es;
     h_deferred := h_deferred h; h_replied := h_replied h |}.

Definition is_bot (m : Member) : bool := user_bot (member_user m).
Definition tag_of (m : Member) : string := user_tag (member_user m).

(** The [member.send] call made for one recipient. *)
Definition send_effect (interaction : Interaction) (currentMessage : string) (m : Member)
    : Effect :=
  MemberSend m (payload .> with_embeds [importantMessageEmbed interaction currentMessage m]).

(** A member the batch sends to: not a bot, and the embed that greets
    the member and carries the message is one the builder accepts. *)
Definition sendable (interaction : Interaction) (currentMessage : string) (m : Member) : bool :=
  negb (is_bot m) && embed_ok (importantMessageEmbed interaction currentMessage m).

(** A member the message is delivered to. *)
Definition delivered (interaction : Interaction) (currentMessage : string) (m : Member) : bool :=
  sendable interaction currentMessage m && dm_open interaction m.

(** What [sendOne] answers for a member. *)
Definition send_result (interaction : Interaction) (currentMessage : string) (m : Member)
    : SendResult :=
  {| member := m; success := delivered interaction currentMessage m |}.

(** The name of the field of chunk [index] out of [count]: the "(i/N)"
    suffix is there exactly when there is more than one chunk. *)
Definition chunk_label (count index : nat) : string :=
  if (1 <? count)%nat
  then failedFieldTitle +:+ " (" +:+ num (index + 1) +:+ "/" +:+ num count +:+ ")"
  else failedFieldTitle.

(** The worlds the bot can be in: it starts with an empty store and
    takes one event after the other. *)
Inductive reachable : World -> Prop :=
| reachable_initial : reachable initial_world
| reachable_step w e :
    reachable w -> reachable (out_world (step w e)).

Definition is_confirm_button (interaction : Interaction) : Prop :=
  i_type interaction = ButtonPress ("confirm_send_" +:+ authorId_of interaction).


(** The report of the batch for the session [s] and its role. *)
Definition report_of (interaction : Interaction) (s : InteractionState) (role : Role) : Embed :=
  resultEmbed (currentMessage s) role
    (tally (map (send_result interaction (currentMessage s)) (role_members role))).

(** The sends of the batch, in the order they are made. *)
Definition sends_of (interaction : Interaction) (s : InteractionState) (role : Role)
    : list Effect :=
  map (send_effect interaction (currentMessage s))
      (List.filter (sendable interaction (currentMessage s)) (role_members role)).

(** The session object after the batch: the two lists are filled in. *)
Definition sent_session (interaction : Interaction) (s : InteractionState) (role : Role)
    : InteractionState :=
  let t := tally (map (send_result interaction (currentMessage s)) (role_members role)) in
  set_successfulUsers (tally_successfulUsers t) (set_failedUsers (tally_failedUsers t) s).


(** What the confirm button leaves in the trace when it gets through. *)
Definition confirm_trace (interaction : Interaction) (s : InteractionState)
    (preview : Message) : list Effect :=
  match selectedRole s with
  | None =>
      [DeferUpdate;
       MessageEdit preview
         (payload .> with_content noRoleSelectedText .> with_embeds []
                  .> with_components [])]
  | Some role =>
      DeferUpdate ::
      sends_of interaction s role ++
      [MessageEdit preview
         (payload .> with_content EmptyString
                  .> with_embeds [report_of interaction s role]
                  .> with_components [])]
  end.

End Bot.

(** * Further vocabulary

    Command registration, and the notions the further properties are
    stated with. *)

(** ** Command registration (the [ready] handler) *)

Record StringOption := {
  opt_name : string;
  opt_description : string;
  opt_required : bool
}.

Record SlashCommandBuilder := {
  cmd_name : string;
  cmd_description : string;
  cmd_options : list StringOption
}.

(** The [commands] array of the [ready] handler. *)
Definition commands : list SlashCommandBuilder :=
  [ {| cmd_name := "message";
       cmd_description := "📜 Prepares a message to send to a specific role.";
       cmd_options :=
         [ {| opt_name := "content";
              opt_description := "✉️ The message you want to send.";
              opt_required := true |} ] |};
    {| cmd_name := "cancel";
       cmd_description := "❌ Cancels the active interaction if you have lost control of it.";
       cmd_options := [] |};
    {| cmd_name := "help";
       cmd_description := "❓ Shows the list of available commands and their functionalities.";
       cmd_options := [] |} ].

(** ** Responses to an interaction *)

(** The calls that answer an interaction for the first time; Discord
    accepts one per interaction. *)
Definition is_initial_response (e : Effect) : bool :=
  match e with
  | Reply _ | DeferReply | DeferUpdate => true
  | _ => false
  end.

Definition responses (trace : list Effect) : nat :=
  length (List.filter is_initial_response trace).

(** ** Well-formed worlds and the footprint of an event *)

(** A piece of handler code keeps the predicate [P] on worlds, however
    it ends. *)
Definition preserves (P : World -> Prop) {A} (m : Handler A) : Prop :=
  forall h, P (h_world h) -> P (h_world (m h).2).

(** Every stored reference points into the heap. *)
Definition refs_live (w : World) : Prop :=
  forall a r, interactionState w !! a = Some r -> r < length (heap w).

(** No two operators share a state object. *)
Definition refs_distinct (w : World) : Prop :=
  forall a b r,
    interactionState w !! a = Some r -> interactionState w !! b = Some r -> a = b.

(** The state object of a pending collector is in the heap, and if it is
    a stored session at all, it is the session of the collector's own
    author. *)
Definition collectors_owned (w : World) : Prop :=
  forall c, In c (collectors w) ->
    col_state c < length (heap w) /\
    forall a, interactionState w !! a = Some (col_state c) -> a = col_authorId c.

Definition well_formed (w : World) : Prop :=
  refs_live w /\ refs_distinct w /\ collectors_owned w.

(** The user an event comes from. *)
Definition author_of (e : Event) : string :=
  match e with
  | InteractionCreate interaction => authorId_of interaction
  | MessageCreate msg => msg_author msg
  end.

(** From [w] to [w'] nothing of anybody but [author] has changed: the
    other operators have the same store entries and the same session
    objects, field by field. *)
Definition untouched_but (author : string) (w w' : World) : Prop :=
  (forall a, a <> author -> interactionState w' !! a = interactionState w !! a) /\
  (forall a r s,
     a <> author -> interactionState w !! a = Some r -> heap w !! r = Some s ->
     heap w' !! r = Some s).

(** The session object [/message] creates. *)
Definition new_session (content : string) (preview : option Message) : InteractionState :=
  {| currentMessage := content; previewMessage := preview; selectedRole := None;
     failedUsers := []; successfulUsers := [] |}.


(** What [/cancel] does to the preview of the session it cancels. *)
Definition cancel_preview_effects (s : InteractionState) : list Effect :=
  match previewMessage s with
  | Some preview =>
      [MessageEdit preview
         (payload .> with_content manuallyCancelledText .> with_embeds []
                  .> with_components []);
       SetTimeout (DeleteMessage preview) 15000%N]
  | None => []
  end.

(** The state of the world while an event of [author] is handled,
    relative to the world [w0] the event arrived in. *)
Definition within (author : string) (w0 w : World) : Prop :=
  well_formed w /\ untouched_but author w0 w.

(** A reference that is not the session of anybody else in [w0]. *)
Definition mine (author : string) (w0 : World) (r : ref) : Prop :=
  forall a, a <> author -> interactionState w0 !! a <> Some r.

(** Two versions of a state object that differ at most in the draft. *)
Definition same_but_draft (s s' : InteractionState) : Prop :=
  previewMessage s' = previewMessage s /\
  selectedRole s' = selectedRole s /\
  failedUsers s' = failedUsers s /\
  successfulUsers s' = successfulUsers s.

(** The field of the report that quotes the message. *)
Definition sentMessageField (currentMessage : string) : EmbedField :=
  {| field_name := "📜 Sent Message"; field_value := currentMessage; field_inline := false |}.

(** The description of a report without failures. *)
Definition allDeliveredText : string := "✅ All messages were delivered successfully!".

(** A member the batch reaches: not a bot, greeted with an embed the
    builder accepts, and taking direct messages. *)
Definition reachable_member (interaction : Interaction) (currentMessage : string) (m : Member)
    : Prop :=
  is_bot m = false /\
  embed_ok (importantMessageEmbed interaction currentMessage m) = true /\
  dm_open interaction m = true.

(** The error notice of the [catch] block and the timer that removes it. *)
Definition error_notice (interaction : Interaction) : list Effect :=
  [Reply (payload .> with_embeds [errorProcessingEmbed] .> with_ephemeral .> with_fetchReply);
   SetTimeout (DeleteMessage (i_reply_message interaction)) 15000%N].

(** The static views of the bot. *)
Definition static_views : list Embed :=
  [helpEmbed; activeInteractionEmbed; permissionDeniedEmbed; noRolesFoundEmbed;
   selectRoleEmbed; noPermissionEmbed; noActiveInteractionEmbed; interactionCancelledEmbed;
   interactionNotFoundEmbed; errorProcessingEmbed; editingMessageEmbed].

(** * A worked scenario

    One guild, one operator, one role of three members: a bot, a member
    who takes direct messages and a member who blocks them. *)

Module Scenario.

Definition support : string := "900".

Definition operator : Member :=
  {| member_user := {| user_id := "42"; user_tag := "op#0042"; user_bot := false |};
     displayName := "Operator" |}.

Definition stranger : Member :=
  {| member_user := {| user_id := "43"; user_tag := "other#0043"; user_bot := false |};
     displayName := "Stranger" |}.

Definition m1 : Member :=
  {| member_user := {| user_id := "1"; user_tag := "m1#0001"; user_bot := true |};
     displayName := "Robot" |}.
Definition m2 : Member :=
  {| member_user := {| user_id := "2"; user_tag := "m2#0002"; user_bot := false |};
     displayName := "Open" |}.
Definition m3 : Member :=
  {| member_user := {| user_id := "3"; user_tag := "m3#0003"; user_bot := false |};
     displayName := "Blocked" |}.

Definition staff : Role :=
  {| role_id := "77"; role_name := "staff"; role_members := [m1; m2; m3] |}.

Definition loner : Role :=
  {| role_id := "78"; role_name := "loner"; role_members := [m2] |}.

(** [m3] rejects direct messages; everybody else takes them. *)
Definition takes_dm (m : Member) : bool :=
  negb (String.eqb (user_id (member_user m)) "3").

Definition interaction_by (who : Member) (roles : list Role) (reply_message : Message)
    (type : InteractionType) : Interaction :=
  {| i_type := type;
     i_user := member_user who;
     i_member := who;
     i_member_roles := [support];
     i_guild_roles := roles;
     i_channel := "general";
     i_reply_message := reply_message;
     dm_open := takes_dm |}.

Definition slash_message : Interaction :=
  interaction_by operator [staff; loner] 10 (ChatInputCommand "message" "hello").
Definition press_staff : Interaction :=
  interaction_by operator [staff; loner] 11 (ButtonPress "select_role_77_42").
Definition press_edit : Interaction :=
  interaction_by operator [staff; loner] 12 (ButtonPress "edit_message_42").
Definition press_confirm : Interaction :=
  interaction_by operator [staff; loner] 13 (ButtonPress "confirm_send_42").
Definition press_cancel : Interaction :=
  interaction_by operator [staff; loner] 14 (ButtonPress "cancel_send_42").
Definition slash_cancel : Interaction :=
  interaction_by operator [staff; loner] 15 (ChatInputCommand "cancel" "").

Definition typed (id : Message) (text : string) : Msg :=
  {| msg_id := id; msg_author := "42"; msg_channel := "general"; msg_content := text |}.

(** After [/message]: waiting for a role. *)
Definition awaiting_role : World :=
  out_world (step support initial_world (InteractionCreate slash_message)).

(** After the role button: waiting for confirm, edit or cancel. *)
Definition awaiting_confirmation : World :=
  out_world (step support awaiting_role (InteractionCreate press_staff)).

(** After the edit button: the collector waits for the next message. *)
Definition editing : World :=
  out_world (step support awaiting_confirmation (InteractionCreate press_edit)).

Definition session0 : InteractionState :=
  {| currentMessage := "hello"; previewMessage := Some 10; selectedRole := None;
     failedUsers := []; successfulUsers := [] |}.

Definition session1 : InteractionState := set_selectedRole (Some staff) session0.

(** The outcomes of the batch for [staff]. *)
Definition staff_results : list SendResult :=
  match Promise_all (sendOne press_confirm "hello") (role_members staff)
          (start awaiting_confirmation) with
  | (Next results, _) => results
  | _ => []
  end.

Definition staff_sends : list Effect :=
  h_trace (Promise_all (sendOne press_confirm "hello") (role_members staff)
             (start awaiting_confirmation)).2.

(** The world after [/cancel], and after the cancel button, sent while
    the edit step is waiting. *)
Definition cancelled_by_command : World :=
  out_world (step support editing (InteractionCreate slash_cancel)).
Definition cancelled_by_button : World :=
  out_world (step support editing (InteractionCreate press_cancel)).

(** The preview the collector renders for the message "again". *)
Definition rerendered_preview : Effect :=
  MessageEdit 10
    (payload .> with_embeds [updatedPreviewEmbed "again" staff]
             .> with_components [previewButtons "42" staff]).

Definition slash_message_again : Interaction :=
  interaction_by operator [staff; loner] 16 (ChatInputCommand "message" "second").

Definition active_notice : Effect :=
  Reply (payload .> with_embeds [activeInteractionEmbed] .> with_ephemeral).

(** A guild whose only role has one member. *)
Definition slash_message_lonely : Interaction :=
  interaction_by operator [loner] 17 (ChatInputCommand "message" "hello").

(** The stranger presses the operator's role button. *)
Definition stranger_press : Interaction :=
  interaction_by stranger [staff; loner] 18 (ButtonPress "select_role_77_42").

(** The role is deleted from the guild before its button is pressed. *)
Definition press_deleted_role : Interaction :=
  interaction_by operator [loner] 19 (ButtonPress "select_role_77_42").

Definition pending_collector : Collector :=
  {| col_channel := "general"; col_authorId := "42"; col_state := 0 |}.

(** Sixty recipients who all blocked the bot. *)
Definition sixty_failed : Tally :=
  {| successCount := 0;
     tally_failedUsers := map (fun i => "user#" +:+ num i) (seq 1 60);
     tally_successfulUsers := [] |}.

(** ** More of the scenario *)

(** The same interaction from a member who holds no role. *)
Definition without_roles (interaction : Interaction) : Interaction :=
  {| i_type := i_type interaction;
     i_user := i_user interaction;
     i_member := i_member interaction;
     i_member_roles := [];
     i_guild_roles := i_guild_roles interaction;
     i_channel := i_channel interaction;
     i_reply_message := i_reply_message interaction;
     dm_open := dm_open interaction |}.

Definition slash_help : Interaction :=
  without_roles (interaction_by stranger [staff; loner] 30 (ChatInputCommand "help" "")).

Definition slash_cancel_unauthorized : Interaction := without_roles slash_cancel.

Definition slash_message_unauthorized : Interaction := without_roles slash_message.

Definition slash_unknown : Interaction :=
  interaction_by operator [staff; loner] 31 (ChatInputCommand "ping" "").

(** A session whose preview was never rendered, as [/message] leaves it
    when it throws after [setState]; and the same with a role. *)
Definition unrendered : World :=
  {| interactionState := {[ "42" := 0 ]};
     heap := [new_session "hello" None];
     collectors := [] |}.

Definition unrendered_with_role : World :=
  {| interactionState := {[ "42" := 0 ]};
     heap := [set_selectedRole (Some staff) (new_session "hello" None)];
     collectors := [] |}.

(** The stranger starts a broadcast of their own. *)
Definition stranger_slash_message : Interaction :=
  interaction_by stranger [staff; loner] 32 (ChatInputCommand "message" "mine").

(** ** Beyond the limits of the builders *)

(** A draft one character longer than the value of an embed field may
    be, sent to [staff]. *)
Definition long_draft : string := string_of_list_ascii (repeat "a"%char 1025).

Definition slash_long_message : Interaction :=
  interaction_by operator [staff; loner] 40 (ChatInputCommand "message" long_draft).

Definition long_awaiting_confirmation : World :=
  run support initial_world
    [InteractionCreate slash_long_message; InteractionCreate press_staff].

Definition long_session : InteractionState :=
  {| currentMessage := long_draft; previewMessage := Some 40; selectedRole := Some staff;
     failedUsers := []; successfulUsers := [] |}.

(** The session of the long draft once the batch has been sent. *)
Definition long_session_sent : InteractionState :=
  {| currentMessage := long_draft; previewMessage := Some 40; selectedRole := Some staff;
     failedUsers := ["m1#0001"; "m3#0003"]; successfulUsers := ["m2#0002"] |}.

(** A role of [n] members who all block direct messages. *)
Definition blocker (i : nat) : Member :=
  {| member_user := {| user_id := num i; user_tag := "user#" +:+ num i; user_bot := false |};
     displayName := "Blocker" |}.

Definition crowd (n : nat) : Role :=
  {| role_id := "79"; role_name := "crowd"; role_members := map blocker (seq 1 n) |}.

Definition crowd_interaction (n : nat) (reply_message : Message) (type : InteractionType)
    : Interaction :=
  {| i_type := type;
     i_user := member_user operator;
     i_member := operator;
     i_member_roles := [support];
     i_guild_roles := [crowd n];
     i_channel := "general";
     i_reply_message := reply_message;
     dm_open := fun _ => false |}.

Definition crowd_confirm (n : nat) : Interaction :=
  crowd_interaction n 52 (ButtonPress "confirm_send_42").

(** The session of the operator when the crowd is selected. *)
Definition crowd_session (n : nat) : InteractionState :=
  {| currentMessage := "hello"; previewMessage := Some 50; selectedRole := Some (crowd n);
     failedUsers := []; successfulUsers := [] |}.

(** [/message] and the button of the crowd: waiting for the confirmation. *)
Definition crowd_awaiting_confirmation (n : nat) : World :=
  run support initial_world
    [InteractionCreate (crowd_interaction n 50 (ChatInputCommand "message" "hello"));
     InteractionCreate (crowd_interaction n 51 (ButtonPress "select_role_79_42"))].



(** A draft that, with the role name, is too long for the description
    of the preview. *)
Definition huge_draft : string := string_of_list_ascii (repeat "a"%char 4090).

Definition slash_huge_message : Interaction :=
  interaction_by operator [staff; loner] 61 (ChatInputCommand "message" huge_draft).

Definition huge_awaiting_role : World :=
  out_world (step support initial_world (InteractionCreate slash_huge_message)).

End Scenario.

(** * Properties *)

(** ** Custom ids *)

Lemma split_nonempty sep s : split sep s <> [].
Proof.
  destruct s as [|c s]; simpl; [discriminate|].
  destruct (Ascii.eqb c sep); [discriminate|].
  destruct (split sep s); discriminate.
Qed.

(** A string without underscores is a single piece. *)
Lemma split_no_underscore s :
  no_underscore s = true -> split underscore s = [s].
Proof.
  induction s as [|c s IH]; simpl; [reflexivity|].
  intros H. apply andb_prop in H as [Hc Hs].
  apply negb_true_iff in Hc. rewrite Hc, (IH Hs). reflexivity.
Qed.

(** An underscore-free prefix followed by an underscore is the first piece. *)
Lemma split_piece p s :
  no_underscore p = true ->
  split underscore (p +:+ String underscore s) = p :: split underscore s.
Proof.
  induction p as [|c p IH]; simpl.
  - intros _. reflexivity.
  - intros H. apply andb_prop in H as [Hc Hp].
    apply negb_true_iff in Hc. rewrite Hc, (IH Hp). reflexivity.
Qed.

(** Whatever comes before the last underscore, the last piece is what
    comes after it. *)
Lemma split_app_last p s :
  exists piece rest,
    split underscore (p +:+ String underscore s) = piece :: rest /\
    rest <> [] /\
    List.last rest EmptyString = pop (split underscore s).
Proof.
  induction p as [|c p (piece & rest & Heq & Hne & Hlast)]; simpl.
  - exists EmptyString, (split underscore s).
    split; [reflexivity|]. split; [apply split_nonempty | reflexivity].
  - destruct (Ascii.eqb c underscore).
    + exists EmptyString, (piece :: rest). rewrite Heq.
      split; [reflexivity|]. split; [discriminate|].
      destruct rest; [contradiction | exact Hlast].
    + rewrite Heq. exists (String c piece), rest. auto.
Qed.

Lemma pop_custom_id p authorId :
  no_underscore authorId = true ->
  pop (split underscore (p +:+ "_" +:+ authorId)) = authorId.
Proof.
  intros H. change ("_" +:+ authorId) with (String underscore authorId).
  destruct (split_app_last p authorId) as (piece & rest & Heq & Hne & Hlast).
  unfold pop in *. rewrite Heq.
  destruct rest; [contradiction|].
  change (List.last (piece :: s :: rest) EmptyString) with (List.last (s :: rest) EmptyString).
  rewrite Hlast, (split_no_underscore _ H). reflexivity.
Qed.

(** ** Sessions *)

Lemma hasState_true w authorId r :
  interactionState w !! authorId = Some r ->
  bool_decide (is_Some (interactionState w !! authorId)) = true.
Proof. intros H. apply bool_decide_eq_true. rewrite H. eauto. Qed.

Lemma hasState_false w authorId :
  interactionState w !! authorId = None ->
  bool_decide (is_Some (interactionState w !! authorId)) = false.
Proof.
  intros H. apply bool_decide_eq_false. rewrite H. intros [x Hx]. discriminate.
Qed.

Lemma world_eta w :
  {| interactionState := interactionState w; heap := heap w; collectors := collectors w |} = w.
Proof. destruct w; reflexivity. Qed.

(** ** Running a handler symbolically *)

Ltac unfold_handler :=
  unfold on_interactionCreate, interaction_body, isCommand, button, message_command,
    cancel_command, select_role, confirm_send, edit_message, cancel_send, help_command,
    interaction_catch.

Ltac unfold_monad :=
  unfold createMessageCollector, setState, getState, deleteState, hasState, read, assign,
    nonnull, built, built_row, reply, deferReply, deferUpdate, editReply, emit, set_flags,
    get_world, put_world, when, return_, throw, bind, pure, start.

(** The views and their checks stay folded while a handler is run. *)
Arguments embed_ok : simpl never.
Arguments row_ok : simpl never.
Arguments importantMessageEmbed : simpl never.
Arguments resultEmbed : simpl never.
Arguments messagePreviewEmbed : simpl never.
Arguments updatedPreviewEmbed : simpl never.
Arguments previewButtons : simpl never.
Arguments roleButtons : simpl never.

Section Properties.

Variable CARGO_SUPORTE_ID : string.

(** C6. A button whose custom id ends in operator A's id, pressed by any
    other user, does nothing: no reply, no render, and the world (store,
    state objects, collectors) is unchanged. *)
Theorem foreign_button_is_noop (w : World) (interaction : Interaction) (p operatorA : string) :
  i_type interaction = ButtonPress (p +:+ "_" +:+ operatorA) ->
  no_underscore operatorA = true ->
  authorId_of interaction <> operatorA ->
  on_interactionCreate CARGO_SUPORTE_ID interaction w =
    {| out_world := w; out_trace := []; out_threw := false |}.
Proof.
  intros Htype Hid Hne.
  unfold_handler. rewrite Htype. cbn -[split pop String.append].
  unfold_monad.
  rewrite (pop_custom_id p operatorA Hid).
  apply String.eqb_neq in Hne. rewrite Hne. reflexivity.
Qed.

(** C2. [/message] from an operator who already has a session is answered
    with the "Active Interaction" notice and nothing else happens: the
    store still maps the operator to the same session object, which is
    unchanged. *)
Theorem message_rejected_when_active (w : World) (interaction : Interaction)
    (content : string) (r : ref) :
  i_type interaction = ChatInputCommand "message" content ->
  interactionState w !! authorId_of interaction = Some r ->
  on_interactionCreate CARGO_SUPORTE_ID interaction w =
    {| out_world := w;
       out_trace := [Reply (payload .> with_embeds [activeInteractionEmbed] .> with_ephemeral)];
       out_threw := false |}.
Proof.
  intros Htype Hr.
  unfold_handler. rewrite Htype. cbn.
  unfold_monad. cbn.
  rewrite (hasState_true _ _ _ Hr). reflexivity.
Qed.

(** *** The cancel paths *)

Lemma pop_cancel_send authorId :
  no_underscore authorId = true ->
  pop (split underscore ("cancel_send_" +:+ authorId)) = authorId.
Proof. intros H. exact (pop_custom_id "cancel_send" authorId H). Qed.

Lemma pop_edit_message authorId :
  no_underscore authorId = true ->
  pop (split underscore ("edit_message_" +:+ authorId)) = authorId.
Proof. intros H. exact (pop_custom_id "edit_message" authorId H). Qed.

Lemma pop_confirm_send authorId :
  no_underscore authorId = true ->
  pop (split underscore ("confirm_send_" +:+ authorId)) = authorId.
Proof. intros H. exact (pop_custom_id "confirm_send" authorId H). Qed.

Lemma cancel_command_world (w : World) (interaction : Interaction) r s :
  is_cancel_command interaction ->
  hasSupportRole CARGO_SUPORTE_ID interaction = true ->
  session_at w (authorId_of interaction) r s ->
  out_world (on_interactionCreate CARGO_SUPORTE_ID interaction w) =
    without_session (authorId_of interaction) w /\
  out_threw (on_interactionCreate CARGO_SUPORTE_ID interaction w) = false.
Proof.
  intros [content Htype] Hrole [Hr Hs].
  unfold_handler. rewrite Htype, Hrole. cbn.
  unfold_monad. cbn.
  rewrite (hasState_true _ _ _ Hr). cbn. rewrite Hr. cbn. rewrite Hs.
  destruct (previewMessage s); cbn; split; reflexivity.
Qed.

Lemma cancel_button_world (w : World) (interaction : Interaction) r s :
  is_cancel_button interaction ->
  no_underscore (authorId_of interaction) = true ->
  session_at w (authorId_of interaction) r s ->
  out_world (on_interactionCreate CARGO_SUPORTE_ID interaction w) =
    without_session (authorId_of interaction) w.
Proof.
  intros Htype Hid [Hr Hs].
  unfold_handler. rewrite Htype. cbn -[split pop String.append].
  rewrite (pop_cancel_send _ Hid), String.eqb_refl.
  unfold_monad. cbn. rewrite Hr. cbn. rewrite Hs.
  destruct (previewMessage s); reflexivity.
Qed.

(** [/cancel] with nothing to cancel. *)
Lemma cancel_command_no_session (w : World) (interaction : Interaction) :
  is_cancel_command interaction ->
  hasSupportRole CARGO_SUPORTE_ID interaction = true ->
  no_session w (authorId_of interaction) ->
  on_interactionCreate CARGO_SUPORTE_ID interaction w =
    {| out_world := w;
       out_trace := [Reply (payload .> with_embeds [noActiveInteractionEmbed] .> with_ephemeral)];
       out_threw := false |}.
Proof.
  intros [content Htype] Hrole Hnone.
  unfold_handler. rewrite Htype, Hrole. cbn.
  unfold_monad. cbn.
  rewrite (hasState_false _ _ Hnone). reflexivity.
Qed.

(** The operator's own button with no session behind it, whatever the
    button is. *)
Lemma button_no_session (w : World) (interaction : Interaction) (p : string) :
  i_type interaction = ButtonPress (p +:+ "_" +:+ authorId_of interaction) ->
  no_underscore (authorId_of interaction) = true ->
  no_session w (authorId_of interaction) ->
  on_interactionCreate CARGO_SUPORTE_ID interaction w =
    {| out_world := w;
       out_trace := [Reply (payload .> with_embeds [interactionNotFoundEmbed] .> with_ephemeral)];
       out_threw := false |}.
Proof.
  intros Htype Hid Hnone.
  unfold_handler. rewrite Htype. cbn -[split pop String.append].
  rewrite (pop_custom_id p _ Hid), String.eqb_refl.
  unfold_monad. cbn -[split pop String.append].
  unfold no_session in Hnone. rewrite Hnone. reflexivity.
Qed.

Lemma cancels_world (w : World) (interaction : Interaction) r s :
  cancels CARGO_SUPORTE_ID interaction ->
  no_underscore (authorId_of interaction) = true ->
  session_at w (authorId_of interaction) r s ->
  out_world (on_interactionCreate CARGO_SUPORTE_ID interaction w) =
    without_session (authorId_of interaction) w.
Proof.
  intros [[Hcmd Hrole] | Hbtn] Hid Hs.
  - apply (cancel_command_world w interaction r s Hcmd Hrole Hs).
  - apply (cancel_button_world w interaction r s Hbtn Hid Hs).
Qed.

Lemma without_session_none authorId w : no_session (without_session authorId w) authorId.
Proof. apply lookup_delete_eq. Qed.

Lemma cancels_no_session (w : World) (interaction : Interaction) :
  cancels CARGO_SUPORTE_ID interaction ->
  no_underscore (authorId_of interaction) = true ->
  no_session w (authorId_of interaction) ->
  on_interactionCreate CARGO_SUPORTE_ID interaction w =
    {| out_world := w; out_trace := [no_session_notice interaction]; out_threw := false |}.
Proof.
  intros [[Hcmd Hrole] | Hbtn] Hid Hnone.
  - rewrite (cancel_command_no_session w interaction Hcmd Hrole Hnone).
    destruct Hcmd as [content Htype]. unfold no_session_notice. rewrite Htype. reflexivity.
  - rewrite (button_no_session w interaction "cancel_send" Hbtn Hid Hnone).
    unfold no_session_notice. rewrite Hbtn. reflexivity.
Qed.

(** C9. Cancelling twice.  After a first cancellation (by [/cancel] or by
    the cancel button) the operator has no session; a second cancellation
    (by either means) does not throw, changes nothing in the world and
    renders no second cancellation notice: its whole trace is one reply,
    "No Active Interaction" for the command and "Interaction Not Found"
    for the button. *)
Theorem cancel_twice (w : World) (first second : Interaction) r s :
  session_at w (authorId_of first) r s ->
  authorId_of second = authorId_of first ->
  no_underscore (authorId_of first) = true ->
  cancels CARGO_SUPORTE_ID first ->
  cancels CARGO_SUPORTE_ID second ->
  let w1 := out_world (on_interactionCreate CARGO_SUPORTE_ID first w) in
  no_session w1 (authorId_of first) /\
  on_interactionCreate CARGO_SUPORTE_ID second w1 =
    {| out_world := w1; out_trace := [no_session_notice second]; out_threw := false |}.
Proof.
  intros Hs Hsame Hid Hfirst Hsecond w1.
  assert (Hw1 : w1 = without_session (authorId_of first) w)
    by (apply (cancels_world w first r s Hfirst Hid Hs)).
  assert (Hnone : no_session w1 (authorId_of first))
    by (rewrite Hw1; apply without_session_none).
  split; [exact Hnone|].
  apply cancels_no_session; [exact Hsecond | | ]; rewrite Hsame; assumption.
Qed.

(** C5. [/message] from an authorized operator without a session, on a
    guild where no role has two members: the only reply is the "No Roles
    Found" notice, the handler does not throw, and afterwards the store is
    what it was, so it holds no session for the operator. *)
Theorem message_without_eligible_role (w : World) (interaction : Interaction)
    (content : string) :
  i_type interaction = ChatInputCommand "message" content ->
  hasSupportRole CARGO_SUPORTE_ID interaction = true ->
  no_session w (authorId_of interaction) ->
  Forall (fun role => length (role_members role) < 2) (i_guild_roles interaction) ->
  let o := on_interactionCreate CARGO_SUPORTE_ID interaction w in
  interactionState (out_world o) = interactionState w /\
  no_session (out_world o) (authorId_of interaction) /\
  out_trace o =
    [MembersFetch; Reply (payload .> with_embeds [noRolesFoundEmbed] .> with_ephemeral)] /\
  out_threw o = false.
Proof.
  intros Htype Hrole Hnone Hsmall o.
  assert (Hfilter : List.filter (fun role => 2 <=? length (role_members role))%nat
                      (i_guild_roles interaction) = []).
  { induction Hsmall as [|role roles Hlt _ IH]; [reflexivity|].
    cbn [List.filter]. apply Nat.leb_gt in Hlt. rewrite Hlt. exact IH. }
  subst o. unfold_handler. rewrite Htype, Hrole. cbn -[Nat.leb].
  unfold_monad. cbn -[Nat.leb].
  rewrite (hasState_false _ _ Hnone). cbn -[Nat.leb].
  rewrite Hfilter. cbn.
  unfold no_session in *.
  rewrite (delete_insert_id _ _ _ Hnone).
  repeat split; [exact Hnone].
Qed.

(** ** The fan-out send *)

Lemma add_trace_nil h : add_trace [] h = h.
Proof. destruct h; unfold add_trace; simpl. rewrite app_nil_r. reflexivity. Qed.

Lemma add_trace_app es1 es2 h : add_trace es2 (add_trace es1 h) = add_trace (es1 ++ es2) h.
Proof. unfold add_trace; simpl. rewrite app_assoc. reflexivity. Qed.

Lemma sendOne_run interaction currentMessage m h :
  sendOne interaction currentMessage m h =
    (Next (send_result interaction currentMessage m),
     add_trace (if sendable interaction currentMessage m
                then [send_effect interaction currentMessage m] else []) h).
Proof.
  unfold sendOne, send_result, delivered, sendable, send_effect, is_bot.
  destruct (user_bot (member_user m)); simpl.
  - unfold pure. rewrite add_trace_nil. reflexivity.
  - destruct (embed_ok (importantMessageEmbed interaction currentMessage m)); simpl.
    + unfold_monad. destruct (dm_open interaction m); reflexivity.
    + unfold pure. rewrite add_trace_nil. reflexivity.
Qed.

(** The whole batch: it never throws, leaves the world alone, and issues
    the sends in member order. *)
Lemma Promise_all_sendOne interaction currentMessage members h :
  Promise_all (sendOne interaction currentMessage) members h =
    (Next (map (send_result interaction currentMessage) members),
     add_trace (map (send_effect interaction currentMessage)
                    (List.filter (sendable interaction currentMessage) members)) h).
Proof.
  revert h. induction members as [|m members IH]; intros h; simpl.
  - unfold pure. rewrite add_trace_nil. reflexivity.
  - unfold bind at 1. rewrite sendOne_run.
    unfold bind at 1. rewrite IH. unfold pure.
    rewrite add_trace_app.
    destruct (sendable interaction currentMessage m); reflexivity.
Qed.

Lemma tally_from (results : list SendResult) (acc : Tally) :
  fold_left
    (fun acc result =>
       if success result
       then {| successCount := S (successCount acc);
               tally_failedUsers := tally_failedUsers acc;
               tally_successfulUsers :=
                 tally_successfulUsers acc ++ [user_tag (member_user (member result))] |}
       else {| successCount := successCount acc;
               tally_failedUsers :=
                 tally_failedUsers acc ++ [user_tag (member_user (member result))];
               tally_successfulUsers := tally_successfulUsers acc |})
    results acc =
  {| successCount := successCount acc + length (List.filter success results);
     tally_failedUsers :=
       tally_failedUsers acc ++
       map (fun r => tag_of (member r)) (List.filter (fun r => negb (success r)) results);
     tally_successfulUsers :=
       tally_successfulUsers acc ++
       map (fun r => tag_of (member r)) (List.filter success results) |}.
Proof.
  revert acc. induction results as [|r results IH]; intros acc; simpl.
  - rewrite Nat.add_0_r, !app_nil_r. destruct acc; reflexivity.
  - rewrite IH. destruct (success r); simpl.
    + rewrite <- app_assoc. f_equal. lia.
    + rewrite <- app_assoc. reflexivity.
Qed.

Lemma filter_send_result interaction currentMessage (f : Member -> bool)
    (g : SendResult -> bool) members :
  (forall m, g (send_result interaction currentMessage m) = f m) ->
  map (fun r => tag_of (member r))
      (List.filter g (map (send_result interaction currentMessage) members)) =
  map tag_of (List.filter f members).
Proof.
  intros Hfg. induction members as [|m members IH]; simpl; [reflexivity|].
  rewrite Hfg. destruct (f m); simpl; rewrite IH; reflexivity.
Qed.

(** The two lists of a batch. *)
Lemma tally_lists interaction currentMessage members :
  let t := tally (map (send_result interaction currentMessage) members) in
  tally_successfulUsers t =
    map tag_of (List.filter (delivered interaction currentMessage) members) /\
  tally_failedUsers t =
    map tag_of (List.filter (fun m => negb (delivered interaction currentMessage m)) members) /\
  successCount t = length (tally_successfulUsers t).
Proof.
  intros t. subst t. unfold tally. rewrite tally_from. simpl.
  rewrite (filter_send_result interaction currentMessage
             (delivered interaction currentMessage) success) by reflexivity.
  rewrite (filter_send_result interaction currentMessage
             (fun m => negb (delivered interaction currentMessage m))
             (fun r => negb (success r))) by reflexivity.
  repeat split.
  rewrite length_map.
  induction members as [|m members IH]; simpl; [reflexivity|].
  destruct (delivered interaction currentMessage m); simpl; rewrite IH; reflexivity.
Qed.

(** C1, as the code has it.  For any member list the batch completes
    (no failure aborts it).  A bot gets no send.  A member who is not a
    bot gets exactly one [member.send], carrying the greeting and the
    message, in member order, unless the embed for that member is one
    the builder refuses (greeting and message over 4096 characters, say):
    then the error is caught like a failed send and nothing is sent.  The
    successful list holds the members whose send resolved; the failed
    list holds, in member order, everybody else: the members whose send
    was rejected, those whose embed was refused, and also the bots. *)
Theorem fanout_send (interaction : Interaction) (currentMessage : string)
    (members : list Member) (h : HState) :
  exists results,
    Promise_all (sendOne interaction currentMessage) members h =
      (Next results,
       add_trace
         (map (fun m =>
                 MemberSend m
                   (payload .> with_embeds [importantMessageEmbed interaction currentMessage m]))
              (List.filter
                 (fun m => negb (is_bot m) &&
                           embed_ok (importantMessageEmbed interaction currentMessage m))
                 members)) h) /\
    map member results = members /\
    tally_successfulUsers (tally results) =
      map tag_of
        (List.filter
           (fun m => negb (is_bot m) &&
                     embed_ok (importantMessageEmbed interaction currentMessage m) &&
                     dm_open interaction m)
           members) /\
    tally_failedUsers (tally results) =
      map tag_of
        (List.filter
           (fun m => is_bot m ||
                     negb (embed_ok (importantMessageEmbed interaction currentMessage m)) ||
                     negb (dm_open interaction m))
           members) /\
    successCount (tally results) = length (tally_successfulUsers (tally results)).
Proof.
  exists (map (send_result interaction currentMessage) members).
  split; [apply Promise_all_sendOne|].
  split.
  { rewrite map_map. simpl. apply map_id. }
  destruct (tally_lists interaction currentMessage members) as (Hok & Hfailed & Hcount).
  split; [exact Hok|]. split; [|exact Hcount].
  rewrite Hfailed. f_equal. apply List.filter_ext. intros m.
  unfold delivered, sendable.
  destruct (is_bot m), (embed_ok (importantMessageEmbed interaction currentMessage m)),
    (dm_open interaction m); reflexivity.
Qed.

(** ** The report: chunks of failed recipients *)

Lemma map_fmap {A B} (f : A -> B) (l : list A) : map f l = f <$> l.
Proof. induction l as [|x l IH]; simpl; [reflexivity | rewrite IH; reflexivity]. Qed.

Lemma ceil_div_bounds (n size : nat) :
  0 < size -> n <= ceil_div n size * size < n + size.
Proof.
  intros Hpos. unfold ceil_div.
  pose proof (Nat.div_mod_eq n size) as Hdm.
  pose proof (Nat.mod_upper_bound n size ltac:(lia)) as Hlt.
  destruct (Nat.eqb_spec (n mod size) 0) as [Hz|Hnz]; nia.
Qed.

(** [Math.ceil(n / size)] as an integer division. *)
Lemma ceil_div_eq (n size : nat) :
  0 < size -> ceil_div n size = (n + (size - 1)) / size.
Proof.
  intros Hpos. destruct (ceil_div_bounds n size Hpos) as [Hlo Hhi].
  destruct (Nat.eq_dec (ceil_div n size) 0) as [Hz|Hnz].
  - rewrite Hz in *. assert (n = 0) by lia. subst n.
    symmetry. apply Nat.div_small. lia.
  - apply (Nat.div_unique _ _ _ (n + (size - 1) - size * ceil_div n size)); nia.
Qed.

Lemma length_chunkArray {A} (arr : list A) size :
  length (chunkArray arr size) = ceil_div (length arr) size.
Proof. unfold chunkArray. rewrite length_map, length_seq. reflexivity. Qed.

(** The first [m] chunks are the first [m * size] elements. *)
Lemma concat_slices {A} (arr : list A) size m :
  concat (map (fun i => slice (i * size) (i * size + size) arr) (seq 0 m)) =
  take (m * size) arr.
Proof.
  induction m as [|m IH]; [reflexivity|].
  rewrite seq_S, map_app, concat_app, IH. simpl.
  rewrite app_nil_r. unfold slice.
  replace (m * size + size - m * size) with size by lia.
  rewrite take_take_drop. f_equal. lia.
Qed.

Lemma concat_chunkArray {A} (arr : list A) size :
  0 < size -> concat (chunkArray arr size) = arr.
Proof.
  intros Hpos. unfold chunkArray. rewrite concat_slices.
  apply take_ge. apply (ceil_div_bounds (length arr) size Hpos).
Qed.

Lemma chunkArray_sizes {A} (arr : list A) size :
  Forall (fun chunk => length chunk <= size) (chunkArray arr size).
Proof.
  unfold chunkArray. apply List.Forall_forall. intros chunk Hin.
  apply in_map_iff in Hin as (i & <- & _). unfold slice.
  rewrite length_take. lia.
Qed.

Lemma failedUserFields_names (failedUsers : list string) :
  map field_name (failedUserFields failedUsers) =
  map (chunk_label (length (chunkArray failedUsers usersPerField)))
      (seq 0 (length (chunkArray failedUsers usersPerField))).
Proof.
  unfold failedUserFields. rewrite !map_fmap, fmap_imap.
  rewrite <- (imap_seq_0 (chunkArray failedUsers usersPerField)).
  apply imap_ext. intros i chunk _. reflexivity.
Qed.

Lemma failedUserFields_values (failedUsers : list string) :
  map field_value (failedUserFields failedUsers) =
  map (fun chunk => join newline (map (fun user => "• " +:+ user) chunk))
      (chunkArray failedUsers usersPerField).
Proof.
  unfold failedUserFields. rewrite !map_fmap, fmap_imap.
  rewrite <- imap_const. apply imap_ext. intros i chunk _. reflexivity.
Qed.

(** ** Role selection *)

Lemma split_select_role roleId authorId :
  no_underscore roleId = true ->
  split underscore ("select_role_" +:+ roleId +:+ "_" +:+ authorId) !! 2 = Some roleId.
Proof.
  intros Hrole.
  change ("select_role_" +:+ roleId +:+ "_" +:+ authorId)
    with ("select" +:+ String underscore
            ("role" +:+ String underscore (roleId +:+ String underscore authorId))).
  rewrite (split_piece "select") by reflexivity.
  rewrite (split_piece "role") by reflexivity.
  rewrite (split_piece roleId) by assumption.
  reflexivity.
Qed.

Lemma pop_select_role roleId authorId :
  no_underscore authorId = true ->
  pop (split underscore ("select_role_" +:+ roleId +:+ "_" +:+ authorId)) = authorId.
Proof. intros H. exact (pop_custom_id ("select_role_" +:+ roleId) authorId H). Qed.

(** C10. A role-selection button whose role the guild no longer
    resolves: the preview is edited to the "role was not found" text, the
    operator's session is removed from the store, nothing throws, and
    the session object itself is left as it was, so its [selectedRole]
    is not set by this press. *)
Theorem select_unresolved_role (w : World) (interaction : Interaction) (roleId : string)
    (r : ref) (s : InteractionState) (preview : Message) :
  i_type interaction =
    ButtonPress ("select_role_" +:+ roleId +:+ "_" +:+ authorId_of interaction) ->
  no_underscore roleId = true ->
  no_underscore (authorId_of interaction) = true ->
  session_at w (authorId_of interaction) r s ->
  previewMessage s = Some preview ->
  List.find (fun role => String.eqb (role_id role) roleId) (i_guild_roles interaction) = None ->
  let o := on_interactionCreate CARGO_SUPORTE_ID interaction w in
  o = {| out_world := without_session (authorId_of interaction) w;
         out_trace :=
           [RolesFetch roleId;
            MessageEdit preview
              (payload .> with_content roleNotFoundText .> with_embeds []
                       .> with_components [])];
         out_threw := false |} /\
  no_session (out_world o) (authorId_of interaction) /\
  heap (out_world o) !! r = Some s.
Proof.
  intros Htype Hrole Hid [Hr Hs] Hpm Hfind o.
  assert (Ho : o = {| out_world := without_session (authorId_of interaction) w;
                      out_trace :=
                        [RolesFetch roleId;
                         MessageEdit preview
                           (payload .> with_content roleNotFoundText .> with_embeds []
                                    .> with_components [])];
                      out_threw := false |}).
  { subst o. unfold_handler. rewrite Htype. cbn -[split pop String.append].
    rewrite (pop_select_role _ _ Hid), String.eqb_refl.
    rewrite (split_select_role _ _ Hrole).
    unfold_monad. cbn -[split pop String.append].
    rewrite Hr. cbn. rewrite Hfind. cbn. rewrite Hs. cbn. rewrite Hpm. reflexivity. }
  rewrite Ho. cbn. split; [reflexivity|]. split; [apply lookup_delete_eq | exact Hs].
Qed.

(** ** Rounds of callbacks *)

Lemma settled_world {B} (r : Flow B * HState) : h_world (settled r) = h_world r.2.
Proof. unfold settled. destruct r as [[b| |] h]; reflexivity. Qed.

(** A round of stretches that keep [P] keeps [P]. *)
Lemma round_preserves (P : World -> Prop) {A B} (f : A -> Handler B) (running : list A)
    (h : HState) :
  (forall a, In a running -> preserves P (f a)) ->
  P (h_world h) -> P (h_world (round f running h).2).
Proof.
  revert h. induction running as [|a rest IH]; intros h Hf HP; [exact HP|].
  cbn [round snd]. apply IH.
  - intros a' Ha'. apply Hf. right. exact Ha'.
  - rewrite settled_world. apply Hf; [left; reflexivity | exact HP].
Qed.

(** A round of stretches that leave the world alone leaves it alone. *)
Lemma round_same_world {A B} (f : A -> Handler B) (running : list A) (h : HState) :
  (forall a h, h_world (f a h).2 = h_world h) ->
  h_world (round f running h).2 = h_world h.
Proof.
  intros Hf. revert h. induction running as [|a rest IH]; intros h; [reflexivity|].
  cbn [round snd]. rewrite IH, settled_world. apply Hf.
Qed.

Lemma on_collect_edit_world running h : h_world (on_collect_edit running h).2 = h_world h.
Proof.
  destruct running as [c options]. unfold on_collect_edit. unfold_monad. cbn.
  destruct (heap (h_world h) !! col_state c) as [s|]; cbn; [|reflexivity].
  destruct (previewMessage s); reflexivity.
Qed.

Lemma on_collect_end_world c h : h_world (on_collect_end c h).2 = h_world h.
Proof. reflexivity. Qed.

(** Only the first stretch of the callbacks writes to the world. *)
Lemma on_messageCreate_world msg w :
  out_world (on_messageCreate msg w) =
  h_world
    (round (on_collect_begin msg) (List.filter (collects msg) (collectors w))
       (start {| interactionState := interactionState w; heap := heap w;
                 collectors := List.filter (fun c => negb (collects msg c)) (collectors w) |})).2.
Proof.
  unfold on_messageCreate. cbn [out_world].
  rewrite (round_same_world on_collect_end) by exact on_collect_end_world.
  rewrite (round_same_world on_collect_edit) by exact on_collect_edit_world.
  reflexivity.
Qed.

(** ** Views of Discord's size *)

Lemma within_length_spec lo hi s :
  within_length lo hi s = true <-> lo <= js_length s <= hi.
Proof.
  unfold within_length. rewrite andb_true_iff, !Nat.leb_le. reflexivity.
Qed.

Lemma js_length_app (a b : string) : js_length (a +:+ b) = js_length a + js_length b.
Proof. induction a as [|c a IH]; simpl; [reflexivity | rewrite IH; lia]. Qed.

(** The lengths of the literals of a goal, computed. *)
Ltac literal_lengths :=
  repeat match goal with
         | |- context [js_length ?s] =>
             let n := eval vm_compute in (js_length s) in
             match n with
             | context [js_length] => fail 1
             | _ => progress change (js_length s) with n
             end
         end.

(** The preview the edit step renders again is one the builders take,
    whatever message of Discord's size the operator types (a message has
    at most 4000 characters), for an operator id of at most 20
    characters and a role of fewer than ten thousand million members. *)
Lemma message_of_discord_size_fits (content authorId : string) (role : Role) :
  js_length content <= 4000 ->
  js_length authorId <= 20 ->
  js_length (num (length (role_members role))) <= 10 ->
  embed_ok (updatedPreviewEmbed content role) = true /\
  row_ok (previewButtons authorId role) = true.
Proof.
  intros Hcontent Hid Hsize.
  set (a := js_length content) in *. set (i := js_length authorId) in *.
  set (d := js_length (num (length (role_members role)))) in *.
  split.
  - unfold embed_ok, updatedPreviewEmbed, setFooter, setDescription, setTitle, setColor,
      EmbedBuilder.
    cbn [color title description fields footer].
    assert (Hdescription :
              setDescription_ok
                ("📜 **Message**: " +:+ content +:+ newline +:+ newline
                 +:+ "Please select one of the options below." +:+ newline +:+ newline
                 +:+ "This role has **" +:+ num (length (role_members role))
                 +:+ " members**.") = true).
    { apply within_length_spec. rewrite !js_length_app. fold a d.
      literal_lengths. lia. }
    rewrite Hdescription. reflexivity.
  - unfold row_ok, previewButtons, button_ok, setCustomId_ok, setLabel_ok.
    cbn [forallb customId label].
    rewrite !andb_true_iff, !within_length_spec, !js_length_app. fold i d.
    literal_lengths. lia.
Qed.

(** ** The edit step *)

Lemma filter_none {A} (f : A -> bool) (l : list A) :
  Forall (fun x => f x = false) l -> List.filter f l = [].
Proof.
  induction 1 as [|x l Hx _ IH]; simpl; [reflexivity|]. rewrite Hx. exact IH.
Qed.

Lemma filter_all {A} (f : A -> bool) (l : list A) :
  Forall (fun x => f x = false) l -> List.filter (fun x => negb (f x)) l = l.
Proof.
  induction 1 as [|x l Hx _ IH]; simpl; [reflexivity|]. rewrite Hx. simpl. congruence.
Qed.

(** A message no pending collector takes: nothing happens. *)
Lemma message_not_collected (w : World) (msg : Msg) :
  Forall (fun c => collects msg c = false) (collectors w) ->
  on_messageCreate msg w = {| out_world := w; out_trace := []; out_threw := false |}.
Proof.
  intros Hnone. unfold on_messageCreate.
  rewrite (filter_none _ _ Hnone), (filter_all _ _ Hnone). simpl.
  rewrite world_eta. reflexivity.
Qed.

(** C7. The edit step, from a session whose role is selected and whose
    preview is rendered, with ids, a member count and a message of
    Discord's size (at most 20 characters, ten digits and 4000
    characters).  The edit button renders the editing prompt and leaves one new
    collector pending.  That collector takes no message of another author
    or of another channel.  The operator's next message in the channel
    is consumed: its content becomes the session's [currentMessage], the
    message is deleted from the channel, the preview is rendered again,
    showing the new text and exactly three buttons, confirm, edit and
    cancel, each carrying the operator's id; and the collector is gone
    (the pending collectors are those from before the edit).  A later
    message of the operator is not consumed. *)
Theorem edit_consumes_one_message (w : World) (interaction : Interaction) (msg : Msg)
    (r : ref) (s : InteractionState) (preview : Message) (role : Role) :
  i_type interaction = ButtonPress ("edit_message_" +:+ authorId_of interaction) ->
  no_underscore (authorId_of interaction) = true ->
  session_at w (authorId_of interaction) r s ->
  previewMessage s = Some preview ->
  selectedRole s = Some role ->
  msg_author msg = authorId_of interaction ->
  msg_channel msg = i_channel interaction ->
  Forall (fun c => collects msg c = false) (collectors w) ->
  js_length (msg_content msg) <= 4000 ->
  js_length (authorId_of interaction) <= 20 ->
  js_length (num (length (role_members role))) <= 10 ->
  let o1 := on_interactionCreate CARGO_SUPORTE_ID interaction w in
  let o2 := on_messageCreate msg (out_world o1) in
  let collector :=
    {| col_channel := i_channel interaction; col_authorId := authorId_of interaction;
       col_state := r |} in
  let size := num (length (role_members role)) in
  out_threw o1 = false /\
  out_trace o1 =
    [DeferUpdate;
     MessageEdit preview (payload .> with_embeds [editingMessageEmbed] .> with_components []);
     CreateMessageCollector (i_channel interaction) (authorId_of interaction)] /\
  collectors (out_world o1) = collectors w ++ [collector] /\
  (forall other : Msg,
     msg_author other <> authorId_of interaction \/ msg_channel other <> i_channel interaction ->
     collects other collector = false) /\
  out_trace o2 =
    [MessageDelete (msg_id msg);
     MessageEdit preview
       {| p_content := None;
          p_embeds :=
            Some [ {| color := 0x00ff00;
                      title := "📚 Updated Preview";
                      description :=
                        "📜 **Message**: " +:+ msg_content msg +:+ newline +:+ newline
                        +:+ "Please select one of the options below." +:+ newline +:+ newline
                        +:+ "This role has **" +:+ size +:+ " members**.";
                      fields := [];
                      footer := "🔧 Developed by @felipecaldass";
                      timestamp := false |} ];
          p_components :=
            Some [ [ {| customId := "confirm_send_" +:+ authorId_of interaction;
                        label := "✅ Confirm Send (" +:+ size +:+ " members)";
                        style := Success |};
                     {| customId := "edit_message_" +:+ authorId_of interaction;
                        label := "✏️ Edit Message";
                        style := Primary |};
                     {| customId := "cancel_send_" +:+ authorId_of interaction;
                        label := "❌ Cancel";
                        style := Danger |} ] ];
          p_ephemeral := false;
          p_fetchReply := false |};
     CollectorStop] /\
  session_at (out_world o2) (authorId_of interaction) r
    {| currentMessage := msg_content msg; previewMessage := Some preview;
       selectedRole := Some role; failedUsers := failedUsers s;
       successfulUsers := successfulUsers s |} /\
  collectors (out_world o2) = collectors w /\
  (forall later : Msg,
     msg_author later = authorId_of interaction ->
     msg_channel later = i_channel interaction ->
     on_messageCreate later (out_world o2) =
       {| out_world := out_world o2; out_trace := []; out_threw := false |}).
Proof.
  intros Htype Hid [Hr Hs] Hpm Hrole Hauthor Hchannel Hnone Hcontent Hidsize Hdigits
    o1 o2 collector size.
  destruct (message_of_discord_size_fits (msg_content msg) (authorId_of interaction) role
              Hcontent Hidsize Hdigits) as [Hembed Hrow].
  assert (Ho1 : o1 = {| out_world :=
                          {| interactionState := interactionState w; heap := heap w;
                             collectors := collectors w ++ [collector] |};
                        out_trace :=
                          [DeferUpdate;
                           MessageEdit preview
                             (payload .> with_embeds [editingMessageEmbed]
                                      .> with_components []);
                           CreateMessageCollector (i_channel interaction)
                             (authorId_of interaction)];
                        out_threw := false |}).
  { subst o1. unfold_handler. rewrite Htype. cbn -[split pop String.append].
    rewrite (pop_edit_message _ Hid), String.eqb_refl.
    unfold_monad. cbn. rewrite Hr. cbn. rewrite Hs. cbn. rewrite Hpm. reflexivity. }
  assert (Htakes : collects msg collector = true).
  { unfold collects, collector. simpl.
    rewrite Hauthor, Hchannel, !String.eqb_refl. reflexivity. }
  assert (Hlen : r < length (heap w)) by (apply lookup_lt_Some in Hs; exact Hs).
  assert (Ho2 : o2 = {| out_world :=
                          {| interactionState := interactionState w;
                             heap := <[r := set_currentMessage (msg_content msg) s]> (heap w);
                             collectors := collectors w |};
                        out_trace :=
                          [MessageDelete (msg_id msg);
                           MessageEdit preview
                             (payload
                                .> with_embeds [updatedPreviewEmbed (msg_content msg) role]
                                .> with_components
                                     [previewButtons (authorId_of interaction) role]);
                           CollectorStop];
                        out_threw := false |}).
  { subst o2. rewrite Ho1. unfold on_messageCreate. cbn [out_world collectors].
    rewrite !List.filter_app, (filter_none _ _ Hnone), (filter_all _ _ Hnone).
    cbn [List.filter]. rewrite Htakes. cbn [negb app].
    unfold on_collect_begin, on_collect_edit, on_collect_end, settled, handed_over.
    unfold_monad. cbn.
    rewrite Hs. cbn. rewrite (list_lookup_insert_eq _ _ _ Hlen). cbn.
    rewrite Hrole. cbn. rewrite Hembed. cbn. rewrite Hrow. cbn.
    rewrite (list_lookup_insert_eq _ _ _ Hlen). cbn.
    rewrite Hpm. cbn. rewrite app_nil_r. reflexivity. }
  rewrite Ho1, Ho2. cbn [out_world out_trace out_threw collectors interactionState heap].
  split; [reflexivity|]. split; [reflexivity|]. split; [reflexivity|].
  split.
  { intros other [Hne | Hne]; unfold collects, collector; simpl.
    - apply String.eqb_neq in Hne. rewrite Hne. apply andb_false_r.
    - apply String.eqb_neq in Hne. rewrite Hne. reflexivity. }
  split; [reflexivity|].
  split.
  { split; [exact Hr|]. cbn [heap].
    rewrite (list_lookup_insert_eq _ _ _ Hlen). unfold set_currentMessage.
    rewrite Hpm, Hrole. reflexivity. }
  split; [reflexivity|].
  intros later Hlauthor Hlchannel.
  apply message_not_collected. cbn [collectors].
  eapply Forall_impl; [exact Hnone|].
  intros c Hc. unfold collects in *. rewrite Hlauthor, Hlchannel, <- Hauthor, <- Hchannel.
  exact Hc.
Qed.

(** ** The [catch] block and the world *)

(** The [catch] block never touches the world. *)
Lemma on_interactionCreate_world interaction w :
  out_world (on_interactionCreate CARGO_SUPORTE_ID interaction w) =
  h_world (interaction_body CARGO_SUPORTE_ID interaction (start w)).2.
Proof.
  unfold on_interactionCreate.
  destruct (interaction_body CARGO_SUPORTE_ID interaction (start w)) as [[[]| |] h];
    simpl; try reflexivity.
  unfold interaction_catch.
  destruct (negb (h_deferred h) && negb (h_replied h)); reflexivity.
Qed.

(** ** The confirm button *)

(** Everything the confirm button of the operator does on a session.
    Without a role it renders the "No role" view on the preview and
    removes the session.  With a role it makes the sends and writes the
    two lists to the state object; then it builds the report, renders it
    on the preview and removes the session, in that order, so that a
    report the builder refuses, or a preview that is missing, leaves the
    session in the store with its lists filled in. *)
Lemma confirm_button_outcome (w : World) (interaction : Interaction) r s :
  is_confirm_button interaction ->
  no_underscore (authorId_of interaction) = true ->
  session_at w (authorId_of interaction) r s ->
  on_interactionCreate CARGO_SUPORTE_ID interaction w =
    match selectedRole s with
    | None =>
        match previewMessage s with
        | Some preview =>
            {| out_world := without_session (authorId_of interaction) w;
               out_trace := confirm_trace interaction s preview;
               out_threw := false |}
        | None => {| out_world := w; out_trace := [DeferUpdate]; out_threw := true |}
        end
    | Some role =>
        let w1 := {| interactionState := interactionState w;
                     heap := <[r := sent_session interaction s role]> (heap w);
                     collectors := collectors w |} in
        match previewMessage s with
        | Some preview =>
            if embed_ok (report_of interaction s role)
            then {| out_world := without_session (authorId_of interaction) w1;
                    out_trace := confirm_trace interaction s preview;
                    out_threw := false |}
            else {| out_world := w1;
                    out_trace := DeferUpdate :: sends_of interaction s role;
                    out_threw := true |}
        | None =>
            {| out_world := w1;
               out_trace := DeferUpdate :: sends_of interaction s role;
               out_threw := true |}
        end
    end.
Proof.
  intros Htype Hid [Hr Hs].
  assert (Hlen : r < length (heap w)) by (apply lookup_lt_Some in Hs; exact Hs).
  unfold_handler. rewrite Htype. cbn -[split pop String.append].
  rewrite (pop_confirm_send _ Hid), String.eqb_refl.
  unfold confirm_trace, report_of, sends_of, sent_session, without_session.
  unfold_monad. cbn. rewrite Hr. cbn. rewrite Hs. cbn.
  destruct (selectedRole s) as [role|] eqn:Hrole; cbn.
  - rewrite Promise_all_sendOne. cbn. rewrite Hs. cbn.
    rewrite (list_lookup_insert_eq _ _ _ Hlen). cbn.
    rewrite list_insert_insert_eq.
    destruct (embed_ok _); cbn; destruct (previewMessage s); reflexivity.
  - destruct (previewMessage s); reflexivity.
Qed.


(** ** Runs *)

Lemma reachable_run (w : World) (es : list Event) :
  reachable CARGO_SUPORTE_ID w -> reachable CARGO_SUPORTE_ID (run CARGO_SUPORTE_ID w es).
Proof.
  revert w. induction es as [|e es IH]; intros w Hw; [exact Hw|].
  cbn [run fold_left]. apply IH. apply reachable_step. exact Hw.
Qed.

(** ** Cancellation and the collector *)

(** The first stretch of a [collect] callback writes the draft of its
    state object, if that object exists, and nothing else. *)
Lemma on_collect_begin_world msg c h :
  h_world (on_collect_begin msg c h).2 =
    {| interactionState := interactionState (h_world h);
       heap := match heap (h_world h) !! col_state c with
               | Some s =>
                   <[col_state c := set_currentMessage (msg_content msg) s]> (heap (h_world h))
               | None => heap (h_world h)
               end;
       collectors := collectors (h_world h) |}.
Proof.
  unfold on_collect_begin. unfold_monad. cbn.
  destruct (heap (h_world h) !! col_state c) as [s|]; cbn; [|symmetry; apply world_eta].
  destruct (<[col_state c:=set_currentMessage (msg_content msg) s]> (heap (h_world h))
              !! col_state c) as [s'|]; cbn; [|reflexivity].
  destruct (selectedRole s'); cbn; [|reflexivity].
  destruct (embed_ok _); cbn; [|reflexivity].
  destruct (row_ok _); reflexivity.
Qed.

(** A message event writes to state objects only: the store and the
    collectors that do not take the message are not its business. *)
Lemma round_begin_shape msg taking h :
  interactionState (h_world (round (on_collect_begin msg) taking h).2) =
    interactionState (h_world h) /\
  collectors (h_world (round (on_collect_begin msg) taking h).2) = collectors (h_world h) /\
  length (heap (h_world (round (on_collect_begin msg) taking h).2)) =
    length (heap (h_world h)).
Proof.
  revert h. induction taking as [|c taking IH]; intros h; [repeat split|].
  cbn [round snd].
  destruct (IH (settled (on_collect_begin msg c h))) as (Hstore & Hcollectors & Hlength).
  rewrite Hstore, Hcollectors, Hlength, settled_world, on_collect_begin_world.
  cbn [interactionState collectors heap].
  split; [reflexivity|]. split; [reflexivity|].
  destruct (heap (h_world h) !! col_state c); [apply length_insert | reflexivity].
Qed.

Lemma on_messageCreate_store msg w :
  interactionState (out_world (on_messageCreate msg w)) = interactionState w.
Proof.
  rewrite on_messageCreate_world.
  exact (proj1 (round_begin_shape msg _ _)).
Qed.

(** What the two cancellations do to the world: they remove the
    operator's session from the store, and that is all.  The state
    objects and the pending collectors are as before, so a collector of
    the edit step is still pending after the cancellation; whatever
    message comes later, the store stays without a session for the
    operator. *)
Lemma cancel_keeps_collector (w : World) (interaction : Interaction) (r : ref)
    (s : InteractionState) (c : Collector) :
  session_at w (authorId_of interaction) r s ->
  no_underscore (authorId_of interaction) = true ->
  cancels CARGO_SUPORTE_ID interaction ->
  In c (collectors w) ->
  let o := on_interactionCreate CARGO_SUPORTE_ID interaction w in
  no_session (out_world o) (authorId_of interaction) /\
  heap (out_world o) = heap w /\
  collectors (out_world o) = collectors w /\
  In c (collectors (out_world o)) /\
  (forall msg : Msg,
     no_session (out_world (on_messageCreate msg (out_world o))) (authorId_of interaction)).
Proof.
  intros Hs Hid Hcancel Hin o.
  assert (Ho : out_world o = without_session (authorId_of interaction) w)
    by (apply (cancels_world w interaction r s Hcancel Hid Hs)).
  rewrite Ho. cbn [without_session heap collectors].
  split; [apply without_session_none|].
  split; [reflexivity|]. split; [reflexivity|]. split; [exact Hin|].
  intros msg. unfold no_session. rewrite on_messageCreate_store.
  apply without_session_none.
Qed.

End Properties.

(** * The scenario, step by step *)

Module Walkthrough.

Import Scenario.

Lemma awaiting_role_session : session_at awaiting_role "42" 0 session0.
Proof. split; reflexivity. Qed.

Lemma awaiting_confirmation_session : session_at awaiting_confirmation "42" 0 session1.
Proof. split; reflexivity. Qed.

Lemma editing_session : session_at editing "42" 0 session1.
Proof. split; reflexivity. Qed.

Lemma awaiting_confirmation_reachable : reachable support awaiting_confirmation.
Proof. apply reachable_step, reachable_step, reachable_initial. Qed.

(** C1, against the claim.  For [{m1 bot, m2 ok, m3 blocked}] the only
    sends are to [m2] and [m3] and the successful list is [[m2]], but the
    failed list is [[m1; m3]], not [[m3]]: the bot is reported as
    failed. *)
Lemma fanout_lists_bot_as_failed :
  staff_sends = [send_effect press_confirm "hello" m2; send_effect press_confirm "hello" m3] /\
  tally_successfulUsers (tally staff_results) = ["m2#0002"] /\
  tally_failedUsers (tally staff_results) = ["m1#0001"; "m3#0003"] /\
  tally_failedUsers (tally staff_results) <> ["m3#0003"].
Proof. repeat split. discriminate. Qed.

(** The same through the whole handler: what the confirm button stores
    in the session object. *)
Example confirm_stores_bot_as_failed :
  (failedUsers <$>
     heap (out_world (step support awaiting_confirmation (InteractionCreate press_confirm)))
       !! 0) = Some ["m1#0001"; "m3#0003"].
Proof. reflexivity. Qed.

(** The batch for a draft of 4090 characters: with the greeting in front
    the description has more than 4096 characters, the builder refuses
    the embed of every member and the error is caught: nothing is sent
    and every member is answered with a failure. *)
Example fanout_counts_refused_embed_as_failed :
  js_length huge_draft = 4090 /\
  Promise_all (sendOne press_confirm huge_draft) (role_members staff) (start initial_world) =
    (Next [ {| member := m1; success := false |}; {| member := m2; success := false |};
            {| member := m3; success := false |} ],
     start initial_world).
Proof. split; vm_compute; reflexivity. Qed.

(** C3, against the code.  The operator is in the edit step, the
    collector pending, and cancels, by [/cancel] or by the cancel button.
    The session is gone, but the collector is still pending: neither
    handler stops it.  The operator's next message in the channel is
    consumed by it: the message is deleted and the preview of the
    cancelled session is rendered again, with its buttons. *)
Lemma collector_survives_cancel :
  (no_session cancelled_by_command "42" /\
   collectors cancelled_by_command =
     [{| col_channel := "general"; col_authorId := "42"; col_state := 0 |}] /\
   out_trace (on_messageCreate (typed 20 "again") cancelled_by_command) =
     [MessageDelete 20; rerendered_preview; CollectorStop]) /\
  (no_session cancelled_by_button "42" /\
   collectors cancelled_by_button =
     [{| col_channel := "general"; col_authorId := "42"; col_state := 0 |}] /\
   out_trace (on_messageCreate (typed 20 "again") cancelled_by_button) =
     [MessageDelete 20; rerendered_preview; CollectorStop]).
Proof. repeat split. Qed.

(** C8, against the code.  A draft of 1025 characters, one more than
    the value of an embed field may have, and the role [staff]: the
    world is one the bot reaches by [/message] and the role button.  The
    confirm button acknowledges the press and sends the message to [m2]
    and [m3]; then the report cannot be built, because the draft is the
    value of its "Sent Message" field, and the handler throws before it
    renders anything or removes the session.  The session stays in the
    store with its lists filled in, and a second press of the button
    sends the message once more. *)
Lemma confirm_keeps_session_when_report_fails :
  js_length long_draft = 1025 /\
  reachable support long_awaiting_confirmation /\
  session_at long_awaiting_confirmation "42" 0 long_session /\
  embed_ok (report_of press_confirm long_session staff) = false /\
  out_threw (on_interactionCreate support press_confirm long_awaiting_confirmation) = true /\
  out_trace (on_interactionCreate support press_confirm long_awaiting_confirmation) =
    [DeferUpdate;
     send_effect press_confirm long_draft m2;
     send_effect press_confirm long_draft m3] /\
  session_at
    (out_world (on_interactionCreate support press_confirm long_awaiting_confirmation))
    "42" 0 long_session_sent /\
  out_trace
    (on_interactionCreate support press_confirm
       (out_world (on_interactionCreate support press_confirm long_awaiting_confirmation))) =
    [DeferUpdate;
     send_effect press_confirm long_draft m2;
     send_effect press_confirm long_draft m3].
Proof.
  split; [vm_compute; reflexivity|].
  split; [apply reachable_run, reachable_initial|].
  split; [split; vm_compute; reflexivity|].
  split; [vm_compute; reflexivity|].
  split; [vm_compute; reflexivity|].
  split; [vm_compute; reflexivity|].
  split; [split; vm_compute; reflexivity|].
  vm_compute; reflexivity.
Qed.

(** C4, against the code.  A role of 601 members who all block direct
    messages: the world is one the bot reaches by [/message] and the
    role button.  The 601 failed recipients make 25 chunks, and with the
    "Sent Message" field the report would have 26 fields, one more than
    an embed takes.  The confirm button makes the 601 sends and then
    throws while it adds the fields: no report is rendered and the
    session stays, with the 601 recipients in its failed list. *)
Lemma report_breaks_beyond_600_failed :
  reachable support (crowd_awaiting_confirmation 601) /\
  session_at (crowd_awaiting_confirmation 601) "42" 0 (crowd_session 601) /\
  length (role_members (crowd 601)) = 601 /\
  length (chunkArray (map tag_of (role_members (crowd 601))) usersPerField) = 25 /\
  length (fields (report_of (crowd_confirm 601) (crowd_session 601) (crowd 601))) = 26 /\
  out_threw
    (on_interactionCreate support (crowd_confirm 601) (crowd_awaiting_confirmation 601))
    = true /\
  out_trace
    (on_interactionCreate support (crowd_confirm 601) (crowd_awaiting_confirmation 601))
    = DeferUpdate :: map (send_effect (crowd_confirm 601) "hello") (role_members (crowd 601)) /\
  session_at
    (out_world
       (on_interactionCreate support (crowd_confirm 601) (crowd_awaiting_confirmation 601)))
    "42" 0 (sent_session (crowd_confirm 601) (crowd_session 601) (crowd 601)) /\
  failedUsers (sent_session (crowd_confirm 601) (crowd_session 601) (crowd 601)) =
    map tag_of (role_members (crowd 601)).
Proof.
  split; [apply reachable_run, reachable_initial|].
  split; [split; vm_compute; reflexivity|].
  split; [vm_compute; reflexivity|].
  split; [vm_compute; reflexivity|].
  split; [vm_compute; reflexivity|].
  split; [vm_compute; reflexivity|].
  split; [vm_compute; reflexivity|].
  split; [split; vm_compute; reflexivity|].
  vm_compute; reflexivity.
Qed.

Lemma message_rejected_when_active_witness :
  i_type slash_message_again = ChatInputCommand "message" "second" /\
  interactionState awaiting_role !! authorId_of slash_message_again = Some 0 /\
  on_interactionCreate support slash_message_again awaiting_role =
    {| out_world := awaiting_role; out_trace := [active_notice]; out_threw := false |}.
Proof.
  assert (H1 : i_type slash_message_again = ChatInputCommand "message" "second")
    by reflexivity.
  assert (H2 : interactionState awaiting_role !! authorId_of slash_message_again = Some 0)
    by reflexivity.
  exact (conj H1 (conj H2
           (message_rejected_when_active support awaiting_role slash_message_again
              "second" 0 H1 H2))).
Defined.

Lemma message_without_eligible_role_witness :
  hasSupportRole support slash_message_lonely = true /\
  no_session initial_world (authorId_of slash_message_lonely) /\
  Forall (fun role => length (role_members role) < 2) (i_guild_roles slash_message_lonely) /\
  no_session (out_world (on_interactionCreate support slash_message_lonely initial_world))
    (authorId_of slash_message_lonely).
Proof.
  assert (H1 : i_type slash_message_lonely = ChatInputCommand "message" "hello")
    by reflexivity.
  assert (H2 : hasSupportRole support slash_message_lonely = true) by reflexivity.
  assert (H3 : no_session initial_world (authorId_of slash_message_lonely)) by reflexivity.
  assert (H4 : Forall (fun role => length (role_members role) < 2)
                 (i_guild_roles slash_message_lonely)).
  { repeat constructor. }
  exact (conj H2 (conj H3 (conj H4
           (proj1 (proj2 (message_without_eligible_role support initial_world
                            slash_message_lonely "hello" H1 H2 H3 H4)))))).
Defined.

Lemma foreign_button_is_noop_witness :
  authorId_of stranger_press <> "42" /\
  on_interactionCreate support stranger_press awaiting_role =
    {| out_world := awaiting_role; out_trace := []; out_threw := false |}.
Proof.
  assert (H1 : i_type stranger_press = ButtonPress ("select_role_77" +:+ "_" +:+ "42"))
    by reflexivity.
  assert (H2 : no_underscore "42" = true) by reflexivity.
  assert (H3 : authorId_of stranger_press <> "42") by discriminate.
  exact (conj H3
           (foreign_button_is_noop support awaiting_role stranger_press "select_role_77" "42"
              H1 H2 H3)).
Defined.

Lemma cancel_twice_witness :
  cancels support press_cancel /\
  cancels support slash_cancel /\
  on_interactionCreate support slash_cancel cancelled_by_button =
    {| out_world := cancelled_by_button;
       out_trace :=
         [Reply (payload .> with_embeds [noActiveInteractionEmbed] .> with_ephemeral)];
       out_threw := false |}.
Proof.
  assert (H1 : session_at editing (authorId_of press_cancel) 0 session1)
    by exact editing_session.
  assert (H2 : authorId_of slash_cancel = authorId_of press_cancel) by reflexivity.
  assert (H3 : no_underscore (authorId_of press_cancel) = true) by reflexivity.
  assert (H4 : cancels support press_cancel) by (right; reflexivity).
  assert (H5 : cancels support slash_cancel).
  { left. split; [exists EmptyString; reflexivity | reflexivity]. }
  exact (conj H4 (conj H5
           (proj2 (cancel_twice support editing press_cancel slash_cancel 0 session1
                     H1 H2 H3 H4 H5)))).
Defined.

Lemma select_unresolved_role_witness :
  List.find (fun role => String.eqb (role_id role) "77") (i_guild_roles press_deleted_role)
    = None /\
  no_session (out_world (on_interactionCreate support press_deleted_role awaiting_role)) "42" /\
  heap (out_world (on_interactionCreate support press_deleted_role awaiting_role)) !! 0
    = Some session0.
Proof.
  assert (H1 : i_type press_deleted_role =
               ButtonPress ("select_role_" +:+ "77" +:+ "_" +:+ authorId_of press_deleted_role))
    by reflexivity.
  assert (H2 : no_underscore "77" = true) by reflexivity.
  assert (H3 : no_underscore (authorId_of press_deleted_role) = true) by reflexivity.
  assert (H4 : session_at awaiting_role (authorId_of press_deleted_role) 0 session0)
    by exact awaiting_role_session.
  assert (H5 : previewMessage session0 = Some 10) by reflexivity.
  assert (H6 : List.find (fun role => String.eqb (role_id role) "77")
                 (i_guild_roles press_deleted_role) = None) by reflexivity.
  exact (conj H6
           (proj2 (select_unresolved_role support awaiting_role press_deleted_role "77" 0
                     session0 10 H1 H2 H3 H4 H5 H6))).
Defined.

Lemma edit_consumes_one_message_witness :
  Forall (fun c => collects (typed 20 "again") c = false) (collectors awaiting_confirmation) /\
  js_length "again" <= 4000 /\
  out_trace
    (on_messageCreate (typed 20 "again")
       (out_world (on_interactionCreate support press_edit awaiting_confirmation))) =
    [MessageDelete 20;
     MessageEdit 10
       {| p_content := None;
          p_embeds :=
            Some [ {| color := 0x00ff00;
                      title := "📚 Updated Preview";
                      description := "📜 **Message**: again

Please select one of the options below.

This role has **3 members**.";
                      fields := [];
                      footer := "🔧 Developed by @felipecaldass";
                      timestamp := false |} ];
          p_components :=
            Some [ [ {| customId := "confirm_send_42";
                        label := "✅ Confirm Send (3 members)";
                        style := Success |};
                     {| customId := "edit_message_42";
                        label := "✏️ Edit Message";
                        style := Primary |};
                     {| customId := "cancel_send_42";
                        label := "❌ Cancel";
                        style := Danger |} ] ];
          p_ephemeral := false;
          p_fetchReply := false |};
     CollectorStop] /\
  session_at
    (out_world (on_messageCreate (typed 20 "again")
                  (out_world (on_interactionCreate support press_edit awaiting_confirmation))))
    "42" 0
    {| currentMessage := "again"; previewMessage := Some 10; selectedRole := Some staff;
       failedUsers := []; successfulUsers := [] |} /\
  collectors
    (out_world (on_messageCreate (typed 20 "again")
                  (out_world (on_interactionCreate support press_edit awaiting_confirmation))))
    = [].
Proof.
  assert (H1 : i_type press_edit = ButtonPress ("edit_message_" +:+ authorId_of press_edit))
    by reflexivity.
  assert (H2 : no_underscore (authorId_of press_edit) = true) by reflexivity.
  assert (H3 : session_at awaiting_confirmation (authorId_of press_edit) 0 session1)
    by exact awaiting_confirmation_session.
  assert (H4 : previewMessage session1 = Some 10) by reflexivity.
  assert (H5 : selectedRole session1 = Some staff) by reflexivity.
  assert (H6 : msg_author (typed 20 "again") = authorId_of press_edit) by reflexivity.
  assert (H7 : msg_channel (typed 20 "again") = i_channel press_edit) by reflexivity.
  assert (H8 : Forall (fun c => collects (typed 20 "again") c = false)
                 (collectors awaiting_confirmation)) by constructor.
  assert (H9 : js_length (msg_content (typed 20 "again")) <= 4000) by (vm_compute; lia).
  assert (H10 : js_length (authorId_of press_edit) <= 20) by (vm_compute; lia).
  assert (H11 : js_length (num (length (role_members staff))) <= 10) by (vm_compute; lia).
  pose proof (edit_consumes_one_message support awaiting_confirmation press_edit
                (typed 20 "again") 0 session1 10 staff H1 H2 H3 H4 H5 H6 H7 H8 H9 H10 H11)
    as Hedit.
  cbv zeta in Hedit.
  destruct Hedit as (_ & _ & _ & _ & Htrace & Hsession & Hcollectors & _).
  exact (conj H8 (conj H9 (conj Htrace (conj Hsession Hcollectors)))).
Defined.

End Walkthrough.

(** * Further properties *)

Section MoreProperties.

Variable CARGO_SUPORTE_ID : string.

(** ** Commands *)

(** X2.  [/help] is answered with the command list, to the caller only,
    whatever roles the caller has and whether or not a session is open;
    nothing in the world changes and no other handler runs. *)
Theorem help_is_unrestricted (w : World) (interaction : Interaction) (content : string) :
  i_type interaction = ChatInputCommand "help" content ->
  on_interactionCreate CARGO_SUPORTE_ID interaction w =
    {| out_world := w;
       out_trace := [Reply (payload .> with_embeds [helpEmbed] .> with_ephemeral)];
       out_threw := false |}.
Proof.
  intros Htype. unfold_handler. rewrite Htype. cbn. unfold_monad. reflexivity.
Qed.

(** X3.  Without the support role, [/cancel] cancels nothing, even when the
    caller has a session: the world is unchanged, the caller gets the
    "No Permission" notice, and the notice is scheduled for deletion
    after 10 seconds. *)
Theorem cancel_needs_support_role (w : World) (interaction : Interaction) (content : string) :
  i_type interaction = ChatInputCommand "cancel" content ->
  hasSupportRole CARGO_SUPORTE_ID interaction = false ->
  on_interactionCreate CARGO_SUPORTE_ID interaction w =
    {| out_world := w;
       out_trace :=
         [Reply (payload .> with_embeds [noPermissionEmbed] .> with_ephemeral);
          SetTimeout DeleteReply 10000%N];
       out_threw := false |}.
Proof.
  intros Htype Hrole. unfold_handler. rewrite Htype, Hrole. cbn. unfold_monad. reflexivity.
Qed.

(** X4.  Without the support role and without a session, [/message] creates
    no session: the world is unchanged (no state object is allocated,
    the guild is not fetched) and the caller gets "Permission Denied". *)
Theorem message_needs_support_role (w : World) (interaction : Interaction) (content : string) :
  i_type interaction = ChatInputCommand "message" content ->
  hasSupportRole CARGO_SUPORTE_ID interaction = false ->
  no_session w (authorId_of interaction) ->
  on_interactionCreate CARGO_SUPORTE_ID interaction w =
    {| out_world := w;
       out_trace := [Reply (payload .> with_embeds [permissionDeniedEmbed] .> with_ephemeral)];
       out_threw := false |}.
Proof.
  intros Htype Hrole Hnone. unfold_handler. rewrite Htype, Hrole. cbn.
  unfold_monad. cbn. rewrite (hasState_false _ _ Hnone). reflexivity.
Qed.





(** ** Buttons *)

(** X6.  The custom ids the bot builds decode to what was put in: a role
    button gives back its role id (third piece) and the operator id (last
    piece), and the confirm, edit and cancel buttons give back the
    operator id, provided the ids hold no underscore. *)
Theorem custom_ids_decode (authorId : string) (roles : list Role) (role : Role) :
  no_underscore authorId = true ->
  Forall (fun role => no_underscore (role_id role) = true) roles ->
  Forall2 (fun role b =>
             startsWith (customId b) "select_role_" = true /\
             split underscore (customId b) !! 2 = Some (role_id role) /\
             pop (split underscore (customId b)) = authorId)
          roles (roleButtons authorId roles) /\
  map (fun b => pop (split underscore (customId b))) (previewButtons authorId role) =
    [authorId; authorId; authorId] /\
  map (fun b => (startsWith (customId b) "select_role_",
                 startsWith (customId b) "confirm_send_",
                 startsWith (customId b) "edit_message_",
                 startsWith (customId b) "cancel_send_"))
      (previewButtons authorId role) =
    [(false, true, false, false); (false, false, true, false); (false, false, false, true)].
Proof.
  intros Hid Hroles. split; [|split].
  - unfold roleButtons.
    induction Hroles as [|r roles Hr _ IH]; simpl; constructor; [|exact IH].
    split; [reflexivity|]. cbn [customId].
    split; [apply (split_select_role _ _ Hr) | apply (pop_select_role _ _ Hid)].
  - unfold previewButtons. cbn [map customId].
    rewrite (pop_confirm_send _ Hid), (pop_edit_message _ Hid), (pop_cancel_send _ Hid).
    reflexivity.
  - reflexivity.
Qed.

(** The whole outcome of the button of a role the guild resolves: the
    role is stored first; if the preview or its buttons cannot be built
    the handler throws before it has acknowledged the press, and the
    [catch] block answers it. *)
Lemma select_role_outcome (w : World) (interaction : Interaction) (roleId : string)
    (r : ref) (s : InteractionState) (preview : Message) (role : Role) :
  i_type interaction =
    ButtonPress ("select_role_" +:+ roleId +:+ "_" +:+ authorId_of interaction) ->
  no_underscore roleId = true ->
  no_underscore (authorId_of interaction) = true ->
  session_at w (authorId_of interaction) r s ->
  previewMessage s = Some preview ->
  List.find (fun role => String.eqb (role_id role) roleId) (i_guild_roles interaction)
    = Some role ->
  on_interactionCreate CARGO_SUPORTE_ID interaction w =
    {| out_world :=
         {| interactionState := interactionState w;
            heap := <[r := set_selectedRole (Some role) s]> (heap w);
            collectors := collectors w |};
       out_trace :=
         if embed_ok (messagePreviewEmbed role (currentMessage s)) &&
            row_ok (previewButtons (authorId_of interaction) role)
         then
           [RolesFetch roleId; DeferUpdate;
            MessageEdit preview
              (payload .> with_embeds [messagePreviewEmbed role (currentMessage s)]
                       .> with_components [previewButtons (authorId_of interaction) role])]
         else RolesFetch roleId :: error_notice interaction;
       out_threw :=
         negb (embed_ok (messagePreviewEmbed role (currentMessage s)) &&
               row_ok (previewButtons (authorId_of interaction) role)) |}.
Proof.
  intros Htype Hrole Hid [Hr Hs] Hpm Hfind.
  assert (Hlen : r < length (heap w)) by (apply lookup_lt_Some in Hs; exact Hs).
  unfold_handler. rewrite Htype. cbn -[split pop String.append].
  rewrite (pop_select_role _ _ Hid), String.eqb_refl.
  rewrite (split_select_role _ _ Hrole).
  unfold_monad. cbn -[split pop String.append].
  rewrite Hr. cbn. rewrite Hfind. cbn. rewrite Hs. cbn.
  rewrite (list_lookup_insert_eq _ _ _ Hlen). cbn.
  destruct (embed_ok (messagePreviewEmbed role (currentMessage s))); cbn; [|reflexivity].
  destruct (row_ok (previewButtons (authorId_of interaction) role)); cbn; [|reflexivity].
  rewrite Hpm. reflexivity.
Qed.

(** X7.  The operator presses a role button and the guild resolves the role.
    The role (the first one of the guild with that id) is stored in the
    session, replacing whatever was selected before; the draft, the
    preview handle and the result lists are untouched, and so are the
    store and the collectors.  Then the preview is built: when the
    builders take it, the press is acknowledged and the preview shows
    the role name and the draft, with the confirm, edit and cancel
    buttons; when they refuse it (the role name and the draft together
    are over 4096 characters, say), the handler throws with the role
    already stored and the operator gets the "Error Processing" notice
    instead. *)
Theorem select_role_sets_role (w : World) (interaction : Interaction) (roleId : string)
    (r : ref) (s : InteractionState) (preview : Message) (role : Role) :
  i_type interaction =
    ButtonPress ("select_role_" +:+ roleId +:+ "_" +:+ authorId_of interaction) ->
  no_underscore roleId = true ->
  no_underscore (authorId_of interaction) = true ->
  session_at w (authorId_of interaction) r s ->
  previewMessage s = Some preview ->
  List.find (fun role => String.eqb (role_id role) roleId) (i_guild_roles interaction)
    = Some role ->
  let o := on_interactionCreate CARGO_SUPORTE_ID interaction w in
  let view :=
    {| color := 0x00ff00;
       title := "🛠 Message Preview";
       description := "You selected the role: **" +:+ role_name role +:+ "**" +:+ newline
                      +:+ newline +:+ "📜 **Message**: " +:+ currentMessage s;
       fields := [];
       footer := "🔧 Developed by @felipecaldass";
       timestamp := false |} in
  let buttons :=
    [ {| customId := "confirm_send_" +:+ authorId_of interaction;
         label := "✅ Confirm Send (" +:+ num (length (role_members role)) +:+ " members)";
         style := Success |};
      {| customId := "edit_message_" +:+ authorId_of interaction;
         label := "✏️ Edit Message";
         style := Primary |};
      {| customId := "cancel_send_" +:+ authorId_of interaction;
         label := "❌ Cancel";
         style := Danger |} ] in
  role_id role = roleId /\
  session_at (out_world o) (authorId_of interaction) r
    {| currentMessage := currentMessage s; previewMessage := Some preview;
       selectedRole := Some role; failedUsers := failedUsers s;
       successfulUsers := successfulUsers s |} /\
  interactionState (out_world o) = interactionState w /\
  collectors (out_world o) = collectors w /\
  length (heap (out_world o)) = length (heap w) /\
  (embed_ok view = true -> row_ok buttons = true ->
   out_threw o = false /\
   out_trace o =
     [RolesFetch roleId; DeferUpdate;
      MessageEdit preview (payload .> with_embeds [view] .> with_components [buttons])]) /\
  (embed_ok view = false \/ row_ok buttons = false ->
   out_threw o = true /\
   out_trace o =
     [RolesFetch roleId;
      Reply (payload .> with_embeds [errorProcessingEmbed] .> with_ephemeral
                     .> with_fetchReply);
      SetTimeout (DeleteMessage (i_reply_message interaction)) 15000%N]).
Proof.
  intros Htype Hrole Hid Hsession Hpm Hfind o view buttons. subst o.
  rewrite (select_role_outcome w interaction roleId r s preview role
             Htype Hrole Hid Hsession Hpm Hfind).
  destruct Hsession as [Hr Hs].
  assert (Hlen : r < length (heap w)) by (apply lookup_lt_Some in Hs; exact Hs).
  change (messagePreviewEmbed role (currentMessage s)) with view.
  change (previewButtons (authorId_of interaction) role) with buttons.
  cbn [out_world out_trace out_threw interactionState heap collectors].
  split.
  { apply find_some in Hfind as [_ Heq]. apply String.eqb_eq in Heq. exact Heq. }
  split.
  { split; cbn [interactionState heap]; [exact Hr|].
    rewrite (list_lookup_insert_eq _ _ _ Hlen). unfold set_selectedRole.
    rewrite Hpm. reflexivity. }
  split; [reflexivity|]. split; [reflexivity|]. split; [apply length_insert|].
  split.
  - intros -> ->. split; reflexivity.
  - intros [-> | ->]; [|rewrite andb_false_r]; split; reflexivity.
Qed.

(** ** The two cancellations, in full *)

(** X8.  [/cancel] from a holder of the support role who has a session: the
    preview, if one was rendered, is replaced by the cancellation text
    and scheduled for deletion after 15 seconds; if none was rendered yet
    that step is skipped and nothing throws; then the session is removed
    and the command is answered with the "Interaction Cancelled" notice,
    itself scheduled for deletion after 15 seconds. *)
Theorem cancel_command_outcome (w : World) (interaction : Interaction) (content : string)
    (r : ref) (s : InteractionState) :
  i_type interaction = ChatInputCommand "cancel" content ->
  hasSupportRole CARGO_SUPORTE_ID interaction = true ->
  session_at w (authorId_of interaction) r s ->
  on_interactionCreate CARGO_SUPORTE_ID interaction w =
    {| out_world := without_session (authorId_of interaction) w;
       out_trace :=
         cancel_preview_effects s ++
         [DeferReply;
          EditReply (payload .> with_embeds [interactionCancelledEmbed] .> with_fetchReply);
          SetTimeout (DeleteMessage (i_reply_message interaction)) 15000%N];
       out_threw := false |}.
Proof.
  intros Htype Hrole [Hr Hs].
  unfold_handler. rewrite Htype, Hrole. cbn.
  unfold_monad. cbn.
  rewrite (hasState_true _ _ _ Hr). cbn. rewrite Hr. cbn. rewrite Hs.
  unfold cancel_preview_effects, without_session.
  destruct (previewMessage s); reflexivity.
Qed.

(** X9.  The cancel button removes the session before it touches the
    preview.  With a preview, the preview becomes the "Interaction
    Cancelled" notice and is scheduled for deletion after 15 seconds.
    Without one the edit throws: the session is removed all the same,
    and since the press was already acknowledged the operator gets no
    error notice. *)
Theorem cancel_button_outcome (w : World) (interaction : Interaction)
    (r : ref) (s : InteractionState) :
  i_type interaction = ButtonPress ("cancel_send_" +:+ authorId_of interaction) ->
  no_underscore (authorId_of interaction) = true ->
  session_at w (authorId_of interaction) r s ->
  on_interactionCreate CARGO_SUPORTE_ID interaction w =
    match previewMessage s with
    | Some preview =>
        {| out_world := without_session (authorId_of interaction) w;
           out_trace :=
             [DeferUpdate;
              MessageEdit preview
                (payload .> with_content EmptyString
                         .> with_embeds [interactionCancelledEmbed]
                         .> with_components [] .> with_fetchReply);
              SetTimeout (DeleteMessage preview) 15000%N];
           out_threw := false |}
    | None =>
        {| out_world := without_session (authorId_of interaction) w;
           out_trace := [DeferUpdate];
           out_threw := true |}
    end.
Proof.
  intros Htype Hid [Hr Hs].
  unfold_handler. rewrite Htype. cbn -[split pop String.append].
  rewrite (pop_cancel_send _ Hid), String.eqb_refl.
  unfold_monad. cbn. rewrite Hr. cbn. rewrite Hs. cbn.
  destruct (previewMessage s); reflexivity.
Qed.

(** ** The [catch] block *)

(** X10.  A session whose preview was never rendered, and a role button
    whose role is gone: the handler throws on the preview before
    anything was answered, so the [catch] block replies with the
    "Error Processing" notice and schedules its deletion; the session is
    not removed. *)
Theorem error_notice_when_unanswered (w : World) (interaction : Interaction)
    (roleId : string) (r : ref) (s : InteractionState) :
  i_type interaction =
    ButtonPress ("select_role_" +:+ roleId +:+ "_" +:+ authorId_of interaction) ->
  no_underscore roleId = true ->
  no_underscore (authorId_of interaction) = true ->
  session_at w (authorId_of interaction) r s ->
  previewMessage s = None ->
  List.find (fun role => String.eqb (role_id role) roleId) (i_guild_roles interaction) = None ->
  on_interactionCreate CARGO_SUPORTE_ID interaction w =
    {| out_world := w;
       out_trace :=
         [RolesFetch roleId;
          Reply (payload .> with_embeds [errorProcessingEmbed] .> with_ephemeral
                         .> with_fetchReply);
          SetTimeout (DeleteMessage (i_reply_message interaction)) 15000%N];
       out_threw := true |}.
Proof.
  intros Htype Hrole Hid [Hr Hs] Hpm Hfind.
  unfold_handler. rewrite Htype. cbn -[split pop String.append].
  rewrite (pop_select_role _ _ Hid), String.eqb_refl.
  rewrite (split_select_role _ _ Hrole).
  unfold_monad. cbn -[split pop String.append].
  rewrite Hr. cbn. rewrite Hfind. cbn. rewrite Hs. cbn. rewrite Hpm. reflexivity.
Qed.

(** X11.  Confirm on a session with a role but without a rendered preview:
    the batch is sent (one direct message to every member who is not a
    bot and whose embed the builder takes) and the result lists are
    written to the state object, then the report cannot be rendered and
    the handler throws.  The session stays in the store, with its role,
    so it can be confirmed again; the press was acknowledged before, so
    no error notice is shown. *)
Theorem confirm_without_preview_keeps_session (w : World) (interaction : Interaction)
    (r : ref) (s : InteractionState) (role : Role) :
  i_type interaction = ButtonPress ("confirm_send_" +:+ authorId_of interaction) ->
  no_underscore (authorId_of interaction) = true ->
  session_at w (authorId_of interaction) r s ->
  previewMessage s = None ->
  selectedRole s = Some role ->
  let o := on_interactionCreate CARGO_SUPORTE_ID interaction w in
  let t := tally (map (send_result interaction (currentMessage s)) (role_members role)) in
  out_threw o = true /\
  out_trace o =
    DeferUpdate ::
    map (send_effect interaction (currentMessage s))
        (List.filter
           (fun m => negb (is_bot m) &&
                     embed_ok (importantMessageEmbed interaction (currentMessage s) m))
           (role_members role)) /\
  session_at (out_world o) (authorId_of interaction) r
    (set_successfulUsers (tally_successfulUsers t) (set_failedUsers (tally_failedUsers t) s)) /\
  interactionState (out_world o) = interactionState w.
Proof.
  intros Htype Hid [Hr Hs] Hpm Hrole o t. subst o t.
  assert (Hlen : r < length (heap w)) by (apply lookup_lt_Some in Hs; exact Hs).
  rewrite (confirm_button_outcome CARGO_SUPORTE_ID w interaction r s Htype Hid (conj Hr Hs)).
  rewrite Hrole, Hpm. cbv zeta.
  cbn [out_world out_trace out_threw interactionState heap].
  split; [reflexivity|]. split; [reflexivity|]. split; [|reflexivity].
  split; cbn [interactionState heap]; [exact Hr|].
  apply list_lookup_insert_eq. exact Hlen.
Qed.

(** ** The report and the lists behind it *)

(** X12.  [chunkArray] with a positive size cuts the array at the multiples of
    the size: chunk [i] is the slice from [i * size]; no chunk is empty,
    every chunk but the last is full, the last holds the remainder; an
    empty array gives no chunk at all. *)
Theorem chunkArray_canonical {A} (arr : list A) (size : nat) :
  0 < size ->
  (arr = [] -> chunkArray arr size = []) /\
  forall i chunk,
    chunkArray arr size !! i = Some chunk ->
    chunk = take size (drop (i * size) arr) /\
    chunk <> [] /\
    (i + 1 < length (chunkArray arr size) -> length chunk = size) /\
    (i + 1 = length (chunkArray arr size) -> length chunk = length arr - i * size).
Proof.
  intros Hpos. split.
  { intros ->. unfold chunkArray, ceil_div. simpl.
    rewrite Nat.Div0.div_0_l, Nat.Div0.mod_0_l. reflexivity. }
  intros i chunk Hi.
  pose proof (ceil_div_bounds (length arr) size Hpos) as [Hlo Hhi].
  rewrite length_chunkArray.
  unfold chunkArray in Hi. rewrite map_fmap, list_lookup_fmap in Hi.
  destruct (seq 0 (ceil_div (length arr) size) !! i) as [j|] eqn:Hj; [|discriminate].
  apply lookup_seq in Hj as [-> Hlt]. simpl in Hi. injection Hi as <-.
  unfold slice. replace (i * size + size - i * size) with size by lia.
  assert (Hlen : length (take size (drop (i * size) arr)) =
                 Nat.min size (length arr - i * size))
    by (rewrite length_take, length_drop; reflexivity).
  split; [reflexivity|].
  split.
  { intros Hnil. rewrite Hnil in Hlen. simpl in Hlen. nia. }
  split; intros Hlast; rewrite Hlen; nia.
Qed.


Lemma failed_nil_iff interaction currentMessage members :
  tally_failedUsers (tally (map (send_result interaction currentMessage) members)) = [] <->
  Forall (reachable_member interaction currentMessage) members.
Proof.
  rewrite (proj1 (proj2 (tally_lists interaction currentMessage members))).
  induction members as [|m members IH].
  - split; [constructor | reflexivity].
  - cbn [List.filter].
    destruct (negb (delivered interaction currentMessage m)) eqn:Hf.
    + split; [discriminate|].
      intros H. inversion H as [|? ? (Hb & He & Hd) _]. subst.
      unfold delivered, sendable in Hf. rewrite Hb, He, Hd in Hf. discriminate.
    + rewrite IH. apply negb_false_iff in Hf. unfold delivered, sendable in Hf.
      apply andb_prop in Hf as [Hf Hd]. apply andb_prop in Hf as [Hb He].
      apply negb_true_iff in Hb.
      split.
      * intros H. constructor; [repeat split; assumption | exact H].
      * intros H. inversion H. assumption.
Qed.

(** What [embed_ok] says about the fields of an embed. *)
Lemma embed_ok_fields (e : Embed) :
  embed_ok e = true ->
  length (fields e) <= 25 /\
  Forall (fun f => 1 <= js_length (field_name f) <= 256 /\
                   1 <= js_length (field_value f) <= 1024) (fields e).
Proof.
  unfold embed_ok, addFields_ok. intros H.
  apply andb_prop in H as [H _]. apply andb_prop in H as [_ H].
  apply andb_prop in H as [Hlen Hall]. apply Nat.leb_le in Hlen.
  split; [exact Hlen|].
  rewrite forallb_forall in Hall. apply List.Forall_forall. intros f Hf.
  specialize (Hall f Hf). unfold field_ok in Hall.
  apply andb_prop in Hall as [Hn Hv].
  apply within_length_spec in Hn. apply within_length_spec in Hv. tauto.
Qed.

(** X14.  A report the builder takes (so one that is rendered) quotes a draft
    of 1 to 1024 characters and has at most 25 fields.  It says "All
    messages were delivered successfully!", and has the quoted message as
    its only field, exactly when every member of the role is a non-bot
    whose embed was built and whose send succeeded.  One bot in the role,
    or one member who blocks direct messages, and the report announces
    failures and lists them in further fields. *)
Theorem report_all_delivered (interaction : Interaction) (currentMessage : string)
    (role : Role) :
  let t := tally (map (send_result interaction currentMessage) (role_members role)) in
  let report := resultEmbed currentMessage role t in
  embed_ok report = true ->
  1 <= js_length currentMessage <= 1024 /\
  length (fields report) <= 25 /\
  (Forall (reachable_member interaction currentMessage) (role_members role) ->
   description report = allDeliveredText /\
   fields report = [sentMessageField currentMessage]) /\
  (~ Forall (reachable_member interaction currentMessage) (role_members role) ->
   description report <> allDeliveredText /\
   fields report =
     sentMessageField currentMessage :: failedUserFields (tally_failedUsers t) /\
   1 < length (fields report)).
Proof.
  intros t report Hok.
  destruct (embed_ok_fields report Hok) as [Hcount Hfields].
  assert (Hfirst : exists rest, fields report = sentMessageField currentMessage :: rest).
  { subst report. unfold resultEmbed.
    destruct (0 <? length (tally_failedUsers t))%nat; eexists; reflexivity. }
  destruct Hfirst as [rest Hfirst].
  split.
  { rewrite Hfirst in Hfields. inversion Hfields as [|? ? [_ Hvalue] _]. exact Hvalue. }
  split; [exact Hcount|].
  clear Hok Hcount Hfields Hfirst rest. subst report. split.
  - intros Hall. apply failed_nil_iff in Hall. fold t in Hall.
    unfold resultEmbed. rewrite Hall. split; reflexivity.
  - intros Hsome.
    assert (Hne : tally_failedUsers t <> [])
      by (intros Hnil; apply Hsome; apply failed_nil_iff; exact Hnil).
    unfold resultEmbed.
    destruct (tally_failedUsers t) as [|u rest] eqn:Hfailed; [contradiction|].
    cbn [length Nat.ltb Nat.leb].
    split; [cbn; discriminate|]. split; [reflexivity|].
    cbn [fields addFields setFooter setDescription setTitle setColor EmbedBuilder app length].
    unfold failedUserFields. rewrite length_imap, length_chunkArray.
    pose proof (ceil_div_bounds (length (u :: rest)) usersPerField) as Hb.
    unfold usersPerField in *. cbn [length] in *. lia.
Qed.

Lemma join_concat (sep : string) (l : list string) : join sep l = String.concat sep l.
Proof.
  induction l as [|x l IH]; [reflexivity|].
  destruct l as [|y l]; [reflexivity|].
  cbn [join String.concat] in *. rewrite IH. reflexivity.
Qed.

(** X22.  The chunks of a report that is rendered.  When there are failed
    recipients and the builder takes the report, the failed recipients
    are in the fields after "Sent Message": at most 600 of them, split
    in [ceil(n / 25)] chunks, at most 24, of at most 25 entries each,
    whose concatenation is the list itself.  The field of a chunk lists
    its entries, one bullet a line, in 1 to 1024 characters, and is named
    with the suffix "(i/N)" exactly when there are several chunks, which
    is exactly when there are more than 25 entries.  With 60 entries the
    names end in (1/3), (2/3), (3/3). *)
Theorem report_chunks_when_built (currentMessage : string) (selectedRole : Role) (t : Tally) :
  tally_failedUsers t <> [] ->
  embed_ok (resultEmbed currentMessage selectedRole t) = true ->
  let failedUsers := tally_failedUsers t in
  let chunks := chunkArray failedUsers usersPerField in
  fields (resultEmbed currentMessage selectedRole t) =
    {| field_name := "📜 Sent Message"; field_value := currentMessage;
       field_inline := false |} :: failedUserFields failedUsers /\
  length chunks = (length failedUsers + 24) / 25 /\
  length chunks <= 24 /\
  length failedUsers <= 600 /\
  Forall (fun chunk => length chunk <= 25) chunks /\
  concat chunks = failedUsers /\
  map field_value (failedUserFields failedUsers) =
    map (fun chunk => String.concat newline (map (fun user => "• " +:+ user) chunk)) chunks /\
  Forall (fun f => 1 <= js_length (field_value f) <= 1024) (failedUserFields failedUsers) /\
  map field_name (failedUserFields failedUsers) =
    map (fun index =>
           if (1 <? length chunks)%nat
           then "🚨 Users who didn't receive the message (" +:+ num (index + 1) +:+ "/"
                +:+ num (length chunks) +:+ ")"
           else "🚨 Users who didn't receive the message")
        (seq 0 (length chunks)) /\
  (1 < length chunks <-> 25 < length failedUsers) /\
  (length failedUsers = 60 ->
   map field_name (failedUserFields failedUsers) =
     [ "🚨 Users who didn't receive the message (1/3)";
       "🚨 Users who didn't receive the message (2/3)";
       "🚨 Users who didn't receive the message (3/3)" ]).
Proof.
  intros Hne Hok failedUsers chunks.
  assert (Hlen : length chunks = (length failedUsers + 24) / 25).
  { subst chunks. rewrite length_chunkArray.
    apply (ceil_div_eq (length failedUsers) 25). lia. }
  assert (Hfields : fields (resultEmbed currentMessage selectedRole t) =
                    {| field_name := "📜 Sent Message"; field_value := currentMessage;
                       field_inline := false |} :: failedUserFields failedUsers).
  { unfold resultEmbed. fold failedUsers.
    destruct failedUsers as [|u rest] eqn:E; [contradiction|]. reflexivity. }
  destruct (embed_ok_fields _ Hok) as [Hcount Hall].
  rewrite Hfields in Hcount, Hall. cbn [length] in Hcount.
  inversion Hall as [|? ? _ Hrest]. subst.
  assert (Hchunks : length chunks <= 24).
  { unfold failedUserFields in Hcount. rewrite length_imap in Hcount.
    fold failedUsers chunks in Hcount. lia. }
  pose proof (Nat.div_mod_eq (length failedUsers + 24) 25) as Hdm.
  pose proof (Nat.mod_upper_bound (length failedUsers + 24) 25 ltac:(lia)) as Hlt.
  split; [exact Hfields|].
  split; [exact Hlen|].
  split; [exact Hchunks|].
  split; [lia|].
  split; [apply (chunkArray_sizes failedUsers 25)|].
  split; [apply concat_chunkArray; unfold usersPerField; lia|].
  split.
  { rewrite failedUserFields_values. apply map_ext. intros chunk. apply join_concat. }
  split.
  { eapply Forall_impl; [exact Hrest|]. intros f [_ Hv]. exact Hv. }
  split; [apply failedUserFields_names|].
  split; [lia|].
  intros H60. rewrite failedUserFields_names.
  fold chunks. rewrite Hlen, H60. reflexivity.
Qed.


(** ** The session store *)

(** X1.  [InteractionManager]: a state that is set is found again, as the
    same object, and [hasState] sees it; a state that is deleted is gone;
    neither operation changes what another user has, the objects already
    in the heap, or the trace. *)
Theorem interactionManager_round_trip (h : HState) (userId : string)
    (state : InteractionState) :
  let h1 := (setState userId state h).2 in
  let h2 := (deleteState userId h1).2 in
  (hasState userId h1).1 = Next true /\
  (exists r, (getState userId h1).1 = Next (Some r) /\ heap (h_world h1) !! r = Some state) /\
  (hasState userId h2).1 = Next false /\
  (getState userId h2).1 = Next None /\
  (forall other, other <> userId ->
     (getState other h1).1 = (getState other h).1 /\
     (getState other h2).1 = (getState other h).1) /\
  (forall r s, heap (h_world h) !! r = Some s -> heap (h_world h2) !! r = Some s) /\
  h_trace h2 = h_trace h.
Proof.
  intros h1 h2. subst h1 h2. unfold_monad. cbn.
  split.
  { f_equal. apply bool_decide_eq_true. rewrite lookup_insert_eq. eauto. }
  split.
  { exists (length (heap (h_world h))). rewrite lookup_insert_eq. split; [reflexivity|].
    rewrite lookup_app_r by lia. rewrite Nat.sub_diag. reflexivity. }
  split.
  { f_equal. apply bool_decide_eq_false. rewrite lookup_delete_eq.
    intros [x Hx]. discriminate. }
  split; [rewrite lookup_delete_eq; reflexivity|].
  split.
  { intros other Hne. rewrite lookup_delete_ne, lookup_insert_ne by congruence.
    split; reflexivity. }
  split; [|reflexivity].
  intros r s Hs. apply lookup_app_l_Some. exact Hs.
Qed.

(** ** No cross-talk between operators *)

Lemma preserves_same_world (P : World -> Prop) {A} (m : Handler A) :
  (forall h, h_world (m h).2 = h_world h) -> preserves P m.
Proof. intros Hsame h HP. rewrite Hsame. exact HP. Qed.

Lemma preserves_bind (P : World -> Prop) {A B} (m : Handler A) (k : A -> Handler B) :
  preserves P m -> (forall a, preserves P (k a)) -> preserves P (bind m k).
Proof.
  intros Hm Hk h HP. unfold bind.
  specialize (Hm h HP). destruct (m h) as [[a| |] h']; simpl in *;
    [apply Hk; exact Hm | exact Hm | exact Hm].
Qed.

Lemma preserves_when (P : World -> Prop) b (m : Handler unit) :
  preserves P m -> preserves P (when b m).
Proof. intros Hm. destruct b; [exact Hm | apply preserves_same_world; reflexivity]. Qed.

Lemma preserves_read (P : World -> Prop) r : preserves P (read r).
Proof.
  apply preserves_same_world; intros h. unfold read, bind, get_world. simpl.
  destruct (heap (h_world h) !! r); reflexivity.
Qed.

Lemma preserves_nonnull (P : World -> Prop) {A} (o : option A) : preserves P (nonnull o).
Proof. apply preserves_same_world; intros h; destruct o; reflexivity. Qed.

Lemma preserves_bind_some (P : World -> Prop) {A B} (a : A) (k : A -> Handler B) :
  preserves P (k a) -> preserves P (bind (nonnull (Some a)) k).
Proof. intros Hk h HP. exact (Hk h HP). Qed.

Lemma preserves_bind_none (P : World -> Prop) {A B} (k : A -> Handler B) :
  preserves P (bind (nonnull None) k).
Proof. intros h HP. exact HP. Qed.

Lemma preserves_built (P : World -> Prop) (e : Embed) : preserves P (built e).
Proof. apply preserves_same_world; intros h. unfold built. destruct (embed_ok e); reflexivity. Qed.

Lemma preserves_built_row (P : World -> Prop) (row : ActionRowBuilder) :
  preserves P (built_row row).
Proof.
  apply preserves_same_world; intros h. unfold built_row. destruct (row_ok row); reflexivity.
Qed.

Lemma preserves_Promise_all_sendOne (P : World -> Prop) interaction currentMessage members :
  preserves P (Promise_all (sendOne interaction currentMessage) members).
Proof. apply preserves_same_world; intros h. rewrite Promise_all_sendOne. reflexivity. Qed.

Section Footprint.

(** The user whose event is being handled, and the world it arrived in. *)
Variable author : string.
Variable w0 : World.

Lemma within_start : well_formed w0 -> within author w0 w0.
Proof. intros Hwf. split; [exact Hwf|]. split; intros; [reflexivity | assumption]. Qed.

(** The author's own session is nobody else's. *)
Lemma within_mine (w : World) (state : ref) :
  within author w0 w -> interactionState w !! author = Some state -> mine author w0 state.
Proof.
  intros [(_ & Hdistinct & _) [Hstore _]] Hstate a Hne Ha.
  rewrite <- (Hstore a Hne) in Ha.
  apply Hne. exact (Hdistinct a author state Ha Hstate).
Qed.

Lemma within_setState (state : InteractionState) :
  preserves (within author w0) (setState author state).
Proof.
  intros h [(Hlive & Hdistinct & Howned) [Hstore Hheap]]. cbn.
  split; [split; [|split]|split].
  - intros a r Hr. cbn in *. rewrite length_app. simpl.
    destruct (decide (author = a)) as [<-|Hne].
    + rewrite lookup_insert_eq in Hr. injection Hr as <-. lia.
    + rewrite lookup_insert_ne in Hr by exact Hne. specialize (Hlive a r Hr). lia.
  - intros a b r Ha Hb. cbn in *.
    destruct (decide (author = a)) as [<-|Hna], (decide (author = b)) as [<-|Hnb];
      [reflexivity | | | ].
    + rewrite lookup_insert_eq in Ha. injection Ha as <-.
      rewrite lookup_insert_ne in Hb by exact Hnb. specialize (Hlive b _ Hb). lia.
    + rewrite lookup_insert_eq in Hb. injection Hb as <-.
      rewrite lookup_insert_ne in Ha by exact Hna. specialize (Hlive a _ Ha). lia.
    + rewrite lookup_insert_ne in Ha by exact Hna.
      rewrite lookup_insert_ne in Hb by exact Hnb. exact (Hdistinct a b r Ha Hb).
  - intros c Hc. cbn in *. destruct (Howned c Hc) as [Hlt Hown].
    split; [rewrite length_app; simpl; lia|].
    intros a Ha. destruct (decide (author = a)) as [<-|Hne].
    + rewrite lookup_insert_eq in Ha. injection Ha as Ha. lia.
    + rewrite lookup_insert_ne in Ha by exact Hne. exact (Hown a Ha).
  - intros a Hne. cbn. rewrite lookup_insert_ne by congruence. exact (Hstore a Hne).
  - intros a r s Hne Ha Hs. cbn. apply lookup_app_l_Some. exact (Hheap a r s Hne Ha Hs).
Qed.

Lemma within_deleteState : preserves (within author w0) (deleteState author).
Proof.
  intros h [(Hlive & Hdistinct & Howned) [Hstore Hheap]]. cbn.
  split; [split; [|split]|split].
  - intros a r Hr. cbn in *. apply lookup_delete_Some in Hr as [_ Hr]. exact (Hlive a r Hr).
  - intros a b r Ha Hb. cbn in *.
    apply lookup_delete_Some in Ha as [_ Ha]. apply lookup_delete_Some in Hb as [_ Hb].
    exact (Hdistinct a b r Ha Hb).
  - intros c Hc. cbn in *. destruct (Howned c Hc) as [Hlt Hown].
    split; [exact Hlt|]. intros a Ha.
    apply lookup_delete_Some in Ha as [_ Ha]. exact (Hown a Ha).
  - intros a Hne. cbn. rewrite lookup_delete_ne by congruence. exact (Hstore a Hne).
  - intros a r s Hne Ha Hs. cbn. exact (Hheap a r s Hne Ha Hs).
Qed.

(** Writing to an object that is nobody else's session. *)
Lemma within_assign (r : ref) (f : InteractionState -> InteractionState) :
  mine author w0 r -> preserves (within author w0) (assign r f).
Proof.
  intros Hmine h HP. unfold assign, bind, get_world. simpl.
  destruct (heap (h_world h) !! r) as [s|] eqn:Hs; simpl; [|exact HP].
  destruct HP as [(Hlive & Hdistinct & Howned) [Hstore Hheap]].
  split; [split; [|split]|split]; cbn.
  - intros a r' Hr'. cbn in *. rewrite length_insert. exact (Hlive a r' Hr').
  - exact Hdistinct.
  - intros c Hc. cbn in *. rewrite length_insert. exact (Howned c Hc).
  - exact Hstore.
  - intros a r' s' Hne Ha Hs'. cbn in *.
    rewrite list_lookup_insert_ne; [exact (Hheap a r' s' Hne Ha Hs')|].
    intros <-. exact (Hmine a Hne Ha).
Qed.

(** After [getState] the handler knows that the state is its author's. *)
Lemma within_getState_bind {B} (k : option ref -> Handler B) :
  (forall state, mine author w0 state -> preserves (within author w0) (k (Some state))) ->
  preserves (within author w0) (k None) ->
  preserves (within author w0) (bind (getState author) k).
Proof.
  intros Hsome Hnone h HP. unfold bind, getState, get_world, pure. simpl.
  destruct (interactionState (h_world h) !! author) as [state|] eqn:Hstate.
  - apply Hsome; [|exact HP]. exact (within_mine _ _ HP Hstate).
  - apply Hnone. exact HP.
Qed.

Lemma within_createMessageCollector (channel : string) (state : ref) (h : HState) :
  mine author w0 state ->
  state < length (heap (h_world h)) ->
  within author w0 (h_world h) ->
  within author w0 (h_world (createMessageCollector channel author state h).2).
Proof.
  intros Hmine Hlt [(Hlive & Hdistinct & Howned) [Hstore Hheap]]. cbn.
  split; [split; [|split]|split]; cbn; try assumption.
  intros c Hc. apply in_app_or in Hc as [Hc | [<- | []]]; [exact (Howned c Hc)|].
  cbn. split; [exact Hlt|].
  intros a Ha. destruct (decide (a = author)) as [->|Hne]; [reflexivity|].
  exfalso. rewrite (Hstore a Hne) in Ha. exact (Hmine a Hne Ha).
Qed.

Ltac within_step :=
  match goal with
  | |- preserves _ (bind (getState _) _) =>
      apply within_getState_bind; [intros ? ?|]; cbv beta iota
  | |- preserves _ (bind (nonnull (Some _)) _) => apply preserves_bind_some
  | |- preserves _ (bind (nonnull None) _) => apply preserves_bind_none
  | |- preserves _ (bind _ _) => apply preserves_bind; [|intros ?]
  | |- preserves _ (when _ _) => apply preserves_when
  | |- preserves _ (assign _ _) => apply within_assign; assumption
  | |- preserves _ (setState _ _) => apply within_setState
  | |- preserves _ (deleteState _) => apply within_deleteState
  | |- preserves _ (read _) => apply preserves_read
  | |- preserves _ (nonnull _) => apply preserves_nonnull
  | |- preserves _ (built _) => apply preserves_built
  | |- preserves _ (built_row _) => apply preserves_built_row
  | |- preserves _ (Promise_all _ _) => apply preserves_Promise_all_sendOne
  | |- preserves _ (match ?x with _ => _ end) => destruct x
  | |- preserves _ _ => solve [apply preserves_same_world; reflexivity]
  end.

Lemma within_help_command interaction :
  preserves (within author w0) (help_command interaction).
Proof. unfold help_command. repeat within_step. Qed.

Lemma within_message_command interaction content :
  authorId_of interaction = author ->
  preserves (within author w0) (message_command CARGO_SUPORTE_ID interaction content).
Proof.
  intros Hauthor. unfold message_command. cbv zeta. rewrite Hauthor.
  repeat within_step.
Qed.

Lemma within_cancel_command interaction :
  authorId_of interaction = author ->
  preserves (within author w0) (cancel_command CARGO_SUPORTE_ID interaction).
Proof.
  intros Hauthor. unfold cancel_command. cbv zeta. rewrite Hauthor.
  repeat within_step.
Qed.

Lemma within_select_role interaction customId state :
  authorId_of interaction = author ->
  mine author w0 state ->
  preserves (within author w0) (select_role interaction customId state).
Proof.
  intros Hauthor Hmine. unfold select_role. cbv zeta. rewrite Hauthor.
  repeat within_step.
Qed.

Lemma within_confirm_send interaction state :
  authorId_of interaction = author ->
  mine author w0 state ->
  preserves (within author w0) (confirm_send interaction state).
Proof.
  intros Hauthor Hmine. unfold confirm_send. cbv zeta. rewrite Hauthor.
  repeat within_step.
Qed.

Lemma within_cancel_send interaction state :
  authorId_of interaction = author ->
  preserves (within author w0) (cancel_send interaction state).
Proof.
  intros Hauthor. unfold cancel_send. cbv zeta. rewrite Hauthor.
  repeat within_step.
Qed.

Lemma within_edit_message interaction state :
  authorId_of interaction = author ->
  mine author w0 state ->
  preserves (within author w0) (edit_message interaction state).
Proof.
  intros Hauthor Hmine. unfold edit_message. cbv zeta. rewrite Hauthor.
  apply preserves_bind; [within_step|intros _].
  intros h HP. unfold bind at 1, read. unfold bind at 1, get_world. cbn [fst snd].
  destruct (heap (h_world h) !! state) as [s|] eqn:Hs; unfold pure, throw; [|exact HP].
  unfold bind at 1, nonnull.
  destruct (previewMessage s) as [preview|]; unfold pure, throw; [|exact HP].
  unfold bind at 1, emit.
  apply within_createMessageCollector; [exact Hmine | | exact HP].
  apply lookup_lt_Some in Hs. exact Hs.
Qed.

Lemma within_button interaction customId :
  authorId_of interaction = author ->
  preserves (within author w0) (button interaction customId).
Proof.
  intros Hauthor. unfold button. cbv zeta. rewrite Hauthor.
  repeat within_step;
    auto using within_select_role, within_confirm_send, within_edit_message,
      within_cancel_send.
Qed.

Lemma within_interaction_body interaction :
  authorId_of interaction = author ->
  preserves (within author w0) (interaction_body CARGO_SUPORTE_ID interaction).
Proof.
  intros Hauthor. unfold interaction_body.
  repeat within_step;
    auto using within_help_command, within_message_command, within_cancel_command,
      within_button.
Qed.

Lemma within_on_collect_begin msg c :
  mine author w0 (col_state c) ->
  preserves (within author w0) (on_collect_begin msg c).
Proof. intros Hmine. unfold on_collect_begin. cbv zeta. repeat within_step. Qed.

End Footprint.

(** One event, from a well-formed world: the world stays well formed and
    only the author's own session and objects are touched. *)
Lemma step_within (w : World) (e : Event) :
  well_formed w -> within (author_of e) w (out_world (step CARGO_SUPORTE_ID w e)).
Proof.
  intros Hwf. destruct e as [interaction | msg]; cbn [step author_of].
  - rewrite on_interactionCreate_world.
    apply (within_interaction_body (authorId_of interaction) w interaction eq_refl).
    apply within_start. exact Hwf.
  - rewrite on_messageCreate_world.
    destruct Hwf as (Hlive & Hdistinct & Howned).
    apply (round_preserves (within (msg_author msg) w)).
    + intros c Hc. apply within_on_collect_begin. intros a Hne Ha.
      apply filter_In in Hc as [Hc Htakes].
      unfold collects in Htakes. apply andb_prop in Htakes as [_ Hauthor].
      apply String.eqb_eq in Hauthor.
      destruct (Howned c Hc) as [_ Hown]. apply Hne.
      rewrite Hauthor. exact (Hown a Ha).
    + split; [split; [|split]|split]; cbn.
      * exact Hlive.
      * exact Hdistinct.
      * intros c Hc. cbn in Hc. apply filter_In in Hc as [Hc _]. exact (Howned c Hc).
      * intros; reflexivity.
      * intros; assumption.
Qed.

Lemma reachable_well_formed (w : World) : reachable CARGO_SUPORTE_ID w -> well_formed w.
Proof.
  induction 1 as [|w e _ IH].
  - split; [|split].
    + intros a r Hr. cbn in Hr. rewrite lookup_empty in Hr. discriminate.
    + intros a b r Hr. cbn in Hr. rewrite lookup_empty in Hr. discriminate.
    + intros c [].
  - exact (proj1 (step_within w e IH)).
Qed.

(** X15.  In every world the bot can reach: a stored session is an object of
    the heap; two operators never share a state object; and the state
    object a pending collector will write to is an object of the heap
    that is the session of no operator other than the one whose messages
    the collector takes. *)
Theorem sessions_are_never_shared (w : World) :
  reachable CARGO_SUPORTE_ID w ->
  (forall a r, interactionState w !! a = Some r -> exists s, session_at w a r s) /\
  (forall a b r s s', session_at w a r s -> session_at w b r s' -> a = b) /\
  (forall c, In c (collectors w) ->
     (exists s, heap w !! col_state c = Some s) /\
     (forall a s, session_at w a (col_state c) s -> a = col_authorId c)).
Proof.
  intros Hreach. destruct (reachable_well_formed w Hreach) as (Hlive & Hdistinct & Howned).
  split; [|split].
  - intros a r Hr. destruct (lookup_lt_is_Some_2 (heap w) r (Hlive a r Hr)) as [s Hs].
    exists s. split; assumption.
  - intros a b r s s' [Ha _] [Hb _]. exact (Hdistinct a b r Ha Hb).
  - intros c Hc. destruct (Howned c Hc) as [Hlt Hown]. split.
    + exact (lookup_lt_is_Some_2 (heap w) _ Hlt).
    + intros a s [Ha _]. exact (Hown a Ha).
Qed.

(** X16.  In every world the bot can reach, an event of one user (a command,
    a button press or a message) changes nothing for any other operator:
    whoever had a session still has it, the same object with the same
    fields, and whoever had none still has none. *)
Theorem no_cross_talk (w : World) (e : Event) (other : string) :
  reachable CARGO_SUPORTE_ID w ->
  other <> author_of e ->
  let w' := out_world (step CARGO_SUPORTE_ID w e) in
  (forall r s, session_at w other r s -> session_at w' other r s) /\
  (no_session w other -> no_session w' other).
Proof.
  intros Hreach Hne w'.
  destruct (step_within w e (reachable_well_formed w Hreach)) as [_ [Hstore Hheap]].
  fold w' in Hstore, Hheap. split.
  - intros r s [Hr Hs]. split; [rewrite (Hstore other Hne); exact Hr|].
    exact (Hheap other r s Hne Hr Hs).
  - unfold no_session. intros Hnone. rewrite (Hstore other Hne). exact Hnone.
Qed.

(** ** Answering interactions *)

Lemma responses_app t1 t2 : responses (t1 ++ t2) = responses t1 + responses t2.
Proof. unfold responses. rewrite List.filter_app, length_app. reflexivity. Qed.

Lemma responses_sends interaction currentMessage members :
  responses (map (send_effect interaction currentMessage) members) = 0.
Proof. induction members as [|m members IH]; [reflexivity | exact IH]. Qed.

(** X18.  The commands the [ready] handler registers are exactly the commands
    the interaction handler answers.  A registered command ([/message],
    [/cancel], [/help]) gets exactly one initial response (a reply or a
    deferral) in every world, whatever the caller's roles and session;
    a command of any other name is ignored: no effect, no change. *)
Theorem registered_commands_are_answered (w : World) (interaction : Interaction)
    (name content : string) :
  i_type interaction = ChatInputCommand name content ->
  let o := on_interactionCreate CARGO_SUPORTE_ID interaction w in
  (In name (map cmd_name commands) -> responses (out_trace o) = 1) /\
  (~ In name (map cmd_name commands) ->
   o = {| out_world := w; out_trace := []; out_threw := false |}).
Proof.
  intros Htype o. subst o. split.
  - intros Hin. cbn in Hin.
    destruct Hin as [<- | [<- | [<- | []]]].
    + (* /message *)
      unfold_handler. rewrite Htype. cbn -[Nat.leb].
      unfold_monad. cbn -[Nat.leb].
      destruct (bool_decide (is_Some (interactionState w !! authorId_of interaction)));
        cbn -[Nat.leb]; [reflexivity|].
      destruct (hasSupportRole CARGO_SUPORTE_ID interaction); cbn -[Nat.leb]; [|reflexivity].
      destruct (List.filter (fun role => 2 <=? length (role_members role))%nat
                  (i_guild_roles interaction)); cbn -[Nat.leb]; [reflexivity|].
      destruct (row_ok _); cbn -[Nat.leb]; [|reflexivity].
      rewrite lookup_insert_eq. cbn -[Nat.leb].
      rewrite lookup_app_r by lia. rewrite Nat.sub_diag. reflexivity.
    + (* /cancel *)
      unfold_handler. rewrite Htype. cbn. unfold_monad. cbn.
      destruct (hasSupportRole CARGO_SUPORTE_ID interaction); cbn; [|reflexivity].
      destruct (bool_decide (is_Some (interactionState w !! authorId_of interaction)));
        cbn; [|reflexivity].
      destruct (interactionState w !! authorId_of interaction) as [r|]; cbn; [|reflexivity].
      destruct (heap w !! r) as [s|]; cbn; [|reflexivity].
      destruct (previewMessage s); reflexivity.
    + (* /help *)
      unfold_handler. rewrite Htype. cbn. unfold_monad. reflexivity.
  - intros Hnotin. cbn in Hnotin.
    assert (Hm : String.eqb name "message" = false) by (apply String.eqb_neq; intros ->; apply Hnotin; tauto).
    assert (Hc : String.eqb name "cancel" = false) by (apply String.eqb_neq; intros ->; apply Hnotin; tauto).
    assert (Hh : String.eqb name "help" = false) by (apply String.eqb_neq; intros ->; apply Hnotin; tauto).
    unfold_handler. rewrite Htype. rewrite Hm, Hc, Hh. reflexivity.
Qed.

Lemma startsWith_inv (s p : string) :
  startsWith s p = true -> exists rest, s = p +:+ rest.
Proof.
  revert s. induction p as [|c p IH]; intros s H; simpl in *.
  - exists s. reflexivity.
  - destruct s as [|d s]; [discriminate|].
    apply andb_prop in H as [Hc Hp]. apply Ascii.eqb_eq in Hc. subst d.
    destruct (IH s Hp) as [rest ->]. exists rest. reflexivity.
Qed.

(** X19.  A button press is never answered twice: whatever the custom id, the
    presser and the world, the handler makes at most one initial
    response (reply or deferral), the [catch] block included. *)
Theorem button_answered_at_most_once (w : World) (interaction : Interaction)
    (customId : string) :
  i_type interaction = ButtonPress customId ->
  responses (out_trace (on_interactionCreate CARGO_SUPORTE_ID interaction w)) <= 1.
Proof.
  intros Htype. unfold_handler. rewrite Htype. cbn -[split pop startsWith].
  destruct (String.eqb (authorId_of interaction) (pop (split underscore customId)));
    cbn -[split pop startsWith]; [|unfold_monad; cbn; lia].
  unfold_monad. cbn -[split pop startsWith].
  destruct (interactionState w !! authorId_of interaction) as [r|];
    cbn -[split pop startsWith]; [|cbn; lia].
  match goal with |- context [RolesFetch ?x] => generalize x; intros roleId end.
  destruct (startsWith customId "select_role_") eqn:Eselect.
  { apply startsWith_inv in Eselect as [rest ->]. cbn.
    destruct (List.find _ (i_guild_roles interaction)) as [role|]; cbn.
    - destruct (heap w !! r) as [s|] eqn:Hs; cbn; [|lia].
      rewrite list_lookup_insert_eq by (eapply lookup_lt_Some; eassumption). cbn.
      destruct (embed_ok _); cbn; [|lia].
      destruct (row_ok _); cbn; [|lia].
      destruct (previewMessage s); cbn; lia.
    - destruct (heap w !! r) as [s|]; cbn; [|lia].
      destruct (previewMessage s); cbn; lia. }
  destruct (startsWith customId "confirm_send_") eqn:Econfirm.
  { apply startsWith_inv in Econfirm as [rest ->]. cbn.
    destruct (heap w !! r) as [s|] eqn:Hs; cbn; [|lia].
    destruct (selectedRole s) as [role|]; cbn.
    - rewrite Promise_all_sendOne. cbn. rewrite Hs. cbn.
      rewrite list_lookup_insert_eq by (eapply lookup_lt_Some; eassumption). cbn.
      destruct (embed_ok _); cbn; [destruct (previewMessage s); cbn|];
        match goal with
        | |- context [length (List.filter is_initial_response ?t)] =>
            change (length (List.filter is_initial_response t)) with (responses t)
        end;
        rewrite ?responses_app, responses_sends; cbn; lia.
    - destruct (previewMessage s); cbn; lia. }
  destruct (startsWith customId "edit_message_") eqn:Eedit.
  { apply startsWith_inv in Eedit as [rest ->]. cbn.
    destruct (heap w !! r) as [s|]; cbn; [|lia].
    destruct (previewMessage s); cbn; lia. }
  destruct (startsWith customId "cancel_send_") eqn:Ecancel.
  { apply startsWith_inv in Ecancel as [rest ->]. cbn.
    destruct (heap w !! r) as [s|]; cbn; [|lia].
    destruct (previewMessage s); cbn; lia. }
  cbn. lia.
Qed.

(** ** Message events *)

Lemma round_begin_heap msg taking h r s :
  heap (h_world h) !! r = Some s ->
  exists s',
    heap (h_world (round (on_collect_begin msg) taking h).2) !! r = Some s' /\
    same_but_draft s s' /\
    (~ In r (map col_state taking) -> s' = s) /\
    (In r (map col_state taking) -> currentMessage s' = msg_content msg).
Proof.
  revert h s. induction taking as [|c taking IH]; intros h s Hs; cbn [round snd map].
  - exists s. split; [exact Hs|]. split; [repeat split|]. split; [reflexivity | intros []].
  - set (s1 := if decide (col_state c = r) then set_currentMessage (msg_content msg) s else s).
    assert (Hs1 : heap (h_world (settled (on_collect_begin msg c h))) !! r = Some s1).
    { rewrite settled_world, on_collect_begin_world. cbn [heap]. subst s1.
      destruct (decide (col_state c = r)) as [->|Hne].
      - rewrite Hs. apply list_lookup_insert_eq. apply lookup_lt_Some in Hs. exact Hs.
      - destruct (heap (h_world h) !! col_state c); [|exact Hs].
        rewrite list_lookup_insert_ne by exact Hne. exact Hs. }
    destruct (IH _ _ Hs1) as (s' & Hs' & (Hp & Hr & Hf & Hu) & Hout & Hin).
    exists s'. split; [exact Hs'|].
    assert (Hdraft : same_but_draft s s1)
      by (subst s1; destruct (decide (col_state c = r)); repeat split).
    destruct Hdraft as (Hp1 & Hr1 & Hf1 & Hu1).
    split; [repeat split; congruence|].
    split.
    + intros Hnotin. rewrite Hout by (cbn in Hnotin; tauto). subst s1.
      destruct (decide (col_state c = r)); [cbn in Hnotin; tauto | reflexivity].
    + intros [Heq | Hrest]; [|exact (Hin Hrest)].
      destruct (in_dec Nat.eq_dec r (map col_state taking)) as [Hrest | Hnot];
        [exact (Hin Hrest)|].
      rewrite (Hout Hnot). subst s1.
      destruct (decide (col_state c = r)); [reflexivity | contradiction].
Qed.

(** X20.  A message event, in any world.  The store does not change and no
    state object appears or disappears; an object changes only if it is
    the state of a collector that takes the message, and then only in its
    draft, which becomes the content of the message.  The collectors that
    take the message end, the others stay in order, and delivering the
    same message again finds nobody to take it. *)
Theorem message_changes_only_drafts (w : World) (msg : Msg) :
  let o := on_messageCreate msg w in
  let taking := List.filter (collects msg) (collectors w) in
  out_threw o = false /\
  interactionState (out_world o) = interactionState w /\
  length (heap (out_world o)) = length (heap w) /\
  (forall r s, heap w !! r = Some s ->
     exists s',
       heap (out_world o) !! r = Some s' /\ same_but_draft s s' /\
       (~ In r (map col_state taking) -> s' = s) /\
       (In r (map col_state taking) -> currentMessage s' = msg_content msg)) /\
  collectors (out_world o) =
    List.filter (fun c => negb (collects msg c)) (collectors w) /\
  on_messageCreate msg (out_world o) =
    {| out_world := out_world o; out_trace := []; out_threw := false |}.
Proof.
  intros o taking. subst o.
  split; [reflexivity|].
  rewrite on_messageCreate_world. fold taking.
  set (h0 := start _).
  destruct (round_begin_shape msg taking h0) as (Hstore & Hcollectors & Hlength).
  split; [exact Hstore|]. split; [exact Hlength|].
  split; [intros r s Hs; exact (round_begin_heap msg taking h0 r s Hs)|].
  split; [exact Hcollectors|].
  apply message_not_collected.
  rewrite Hcollectors. subst h0. cbn [start h_world collectors].
  apply List.Forall_forall. intros c Hc. apply filter_In in Hc as [_ Hc].
  apply negb_true_iff in Hc. exact Hc.
Qed.

(** ** From the command to the report *)


(** ** The literal views *)

(** The views that are built from literals pass the checks of the
    builders, so that building them never throws. *)
Lemma static_views_ok : forallb embed_ok static_views = true.
Proof. vm_compute. reflexivity. Qed.

End MoreProperties.

(** * The further properties on the scenario *)

Module MoreWalkthrough.

Import Scenario.

Lemma help_is_unrestricted_witness :
  hasSupportRole support slash_help = false /\
  on_interactionCreate support slash_help editing =
    {| out_world := editing;
       out_trace := [Reply (payload .> with_embeds [helpEmbed] .> with_ephemeral)];
       out_threw := false |}.
Proof.
  assert (H1 : i_type slash_help = ChatInputCommand "help" "") by reflexivity.
  assert (H2 : hasSupportRole support slash_help = false) by reflexivity.
  exact (conj H2 (help_is_unrestricted support editing slash_help "" H1)).
Defined.

Lemma cancel_needs_support_role_witness :
  hasSupportRole support slash_cancel_unauthorized = false /\
  out_world (on_interactionCreate support slash_cancel_unauthorized editing) = editing.
Proof.
  assert (H1 : i_type slash_cancel_unauthorized = ChatInputCommand "cancel" "")
    by reflexivity.
  assert (H2 : hasSupportRole support slash_cancel_unauthorized = false) by reflexivity.
  exact (conj H2
           (f_equal out_world
              (cancel_needs_support_role support editing slash_cancel_unauthorized ""
                 H1 H2))).
Defined.

Lemma message_needs_support_role_witness :
  hasSupportRole support slash_message_unauthorized = false /\
  no_session initial_world (authorId_of slash_message_unauthorized) /\
  out_world (on_interactionCreate support slash_message_unauthorized initial_world) =
    initial_world.
Proof.
  assert (H1 : i_type slash_message_unauthorized = ChatInputCommand "message" "hello")
    by reflexivity.
  assert (H2 : hasSupportRole support slash_message_unauthorized = false) by reflexivity.
  assert (H3 : no_session initial_world (authorId_of slash_message_unauthorized))
    by reflexivity.
  exact (conj H2 (conj H3
           (f_equal out_world
              (message_needs_support_role support initial_world
                 slash_message_unauthorized "hello" H1 H2 H3)))).
Defined.


Lemma custom_ids_decode_witness :
  Forall (fun role => no_underscore (role_id role) = true) [staff; loner] /\
  map (fun b => pop (split underscore (customId b))) (previewButtons "42" staff) =
    ["42"; "42"; "42"].
Proof.
  assert (H1 : no_underscore "42" = true) by reflexivity.
  assert (H2 : Forall (fun role => no_underscore (role_id role) = true) [staff; loner])
    by (repeat constructor).
  exact (conj H2 (proj1 (proj2 (custom_ids_decode "42" [staff; loner] staff H1 H2)))).
Defined.

Lemma select_role_sets_role_witness :
  (List.find (fun role => String.eqb (role_id role) "77") (i_guild_roles press_staff)
     = Some staff /\
   session_at (out_world (on_interactionCreate support press_staff awaiting_role)) "42" 0
     {| currentMessage := "hello"; previewMessage := Some 10; selectedRole := Some staff;
        failedUsers := []; successfulUsers := [] |} /\
   out_threw (on_interactionCreate support press_staff awaiting_role) = false) /\
  (embed_ok (messagePreviewEmbed staff huge_draft) = false /\
   session_at (out_world (on_interactionCreate support press_staff huge_awaiting_role)) "42" 0
     {| currentMessage := huge_draft; previewMessage := Some 61; selectedRole := Some staff;
        failedUsers := []; successfulUsers := [] |} /\
   out_threw (on_interactionCreate support press_staff huge_awaiting_role) = true /\
   out_trace (on_interactionCreate support press_staff huge_awaiting_role) =
     [RolesFetch "77";
      Reply (payload .> with_embeds [errorProcessingEmbed] .> with_ephemeral
                     .> with_fetchReply);
      SetTimeout (DeleteMessage 11) 15000%N]).
Proof.
  assert (H1 : i_type press_staff =
               ButtonPress ("select_role_" +:+ "77" +:+ "_" +:+ authorId_of press_staff))
    by reflexivity.
  assert (H2 : no_underscore "77" = true) by reflexivity.
  assert (H3 : no_underscore (authorId_of press_staff) = true) by reflexivity.
  assert (H6 : List.find (fun role => String.eqb (role_id role) "77")
                 (i_guild_roles press_staff) = Some staff) by reflexivity.
  split.
  - assert (H4 : session_at awaiting_role (authorId_of press_staff) 0 session0)
      by (split; reflexivity).
    assert (H5 : previewMessage session0 = Some 10) by reflexivity.
    pose proof (select_role_sets_role support awaiting_role press_staff "77" 0 session0 10
                  staff H1 H2 H3 H4 H5 H6) as Hselect.
    cbv zeta in Hselect. destruct Hselect as (_ & Hsession & _ & _ & _ & Hbuilt & _).
    assert (H7 : embed_ok (messagePreviewEmbed staff (currentMessage session0)) = true)
      by (vm_compute; reflexivity).
    assert (H8 : row_ok (previewButtons (authorId_of press_staff) staff) = true)
      by (vm_compute; reflexivity).
    exact (conj H6 (conj Hsession (proj1 (Hbuilt H7 H8)))).
  - assert (H4 : session_at huge_awaiting_role (authorId_of press_staff) 0
                   (new_session huge_draft (Some 61))) by (split; vm_compute; reflexivity).
    assert (H5 : previewMessage (new_session huge_draft (Some 61)) = Some 61) by reflexivity.
    pose proof (select_role_sets_role support huge_awaiting_role press_staff "77" 0
                  (new_session huge_draft (Some 61)) 61 staff H1 H2 H3 H4 H5 H6) as Hselect.
    cbv zeta in Hselect. destruct Hselect as (_ & Hsession & _ & _ & _ & _ & Hrefused).
    assert (H7 : embed_ok (messagePreviewEmbed staff huge_draft) = false)
      by (vm_compute; reflexivity).
    destruct (Hrefused (or_introl H7)) as [Hthrew Htrace].
    exact (conj H7 (conj Hsession (conj Hthrew Htrace))).
Defined.

Lemma cancel_command_outcome_witness :
  hasSupportRole support slash_cancel = true /\
  session_at unrendered (authorId_of slash_cancel) 0 (new_session "hello" None) /\
  on_interactionCreate support slash_cancel unrendered =
    {| out_world := without_session "42" unrendered;
       out_trace :=
         [DeferReply;
          EditReply (payload .> with_embeds [interactionCancelledEmbed] .> with_fetchReply);
          SetTimeout (DeleteMessage 15) 15000%N];
       out_threw := false |}.
Proof.
  assert (H1 : i_type slash_cancel = ChatInputCommand "cancel" "") by reflexivity.
  assert (H2 : hasSupportRole support slash_cancel = true) by reflexivity.
  assert (H3 : session_at unrendered (authorId_of slash_cancel) 0
                 (new_session "hello" None)) by (split; reflexivity).
  exact (conj H2 (conj H3
           (cancel_command_outcome support unrendered slash_cancel "" 0
              (new_session "hello" None) H1 H2 H3))).
Defined.

Lemma cancel_button_outcome_witness :
  session_at unrendered (authorId_of press_cancel) 0 (new_session "hello" None) /\
  on_interactionCreate support press_cancel unrendered =
    {| out_world := without_session "42" unrendered;
       out_trace := [DeferUpdate];
       out_threw := true |}.
Proof.
  assert (H1 : i_type press_cancel = ButtonPress ("cancel_send_" +:+ authorId_of press_cancel))
    by reflexivity.
  assert (H2 : no_underscore (authorId_of press_cancel) = true) by reflexivity.
  assert (H3 : session_at unrendered (authorId_of press_cancel) 0
                 (new_session "hello" None)) by (split; reflexivity).
  exact (conj H3
           (cancel_button_outcome support unrendered press_cancel 0
              (new_session "hello" None) H1 H2 H3)).
Defined.

Lemma error_notice_when_unanswered_witness :
  previewMessage (new_session "hello" None) = None /\
  List.find (fun role => String.eqb (role_id role) "77") (i_guild_roles press_deleted_role)
    = None /\
  out_world (on_interactionCreate support press_deleted_role unrendered) = unrendered /\
  out_threw (on_interactionCreate support press_deleted_role unrendered) = true.
Proof.
  assert (H1 : i_type press_deleted_role =
               ButtonPress ("select_role_" +:+ "77" +:+ "_" +:+ authorId_of press_deleted_role))
    by reflexivity.
  assert (H2 : no_underscore "77" = true) by reflexivity.
  assert (H3 : no_underscore (authorId_of press_deleted_role) = true) by reflexivity.
  assert (H4 : session_at unrendered (authorId_of press_deleted_role) 0
                 (new_session "hello" None)) by (split; reflexivity).
  assert (H5 : previewMessage (new_session "hello" None) = None) by reflexivity.
  assert (H6 : List.find (fun role => String.eqb (role_id role) "77")
                 (i_guild_roles press_deleted_role) = None) by reflexivity.
  pose proof (error_notice_when_unanswered support unrendered press_deleted_role "77" 0
                (new_session "hello" None) H1 H2 H3 H4 H5 H6) as Herror.
  exact (conj H5 (conj H6 (conj (f_equal out_world Herror) (f_equal out_threw Herror)))).
Defined.

Lemma confirm_without_preview_keeps_session_witness :
  selectedRole (set_selectedRole (Some staff) (new_session "hello" None)) = Some staff /\
  out_threw (on_interactionCreate support press_confirm unrendered_with_role) = true /\
  interactionState (out_world (on_interactionCreate support press_confirm
                                 unrendered_with_role))
    = interactionState unrendered_with_role.
Proof.
  assert (H1 : i_type press_confirm =
               ButtonPress ("confirm_send_" +:+ authorId_of press_confirm)) by reflexivity.
  assert (H2 : no_underscore (authorId_of press_confirm) = true) by reflexivity.
  assert (H3 : session_at unrendered_with_role (authorId_of press_confirm) 0
                 (set_selectedRole (Some staff) (new_session "hello" None)))
    by (split; reflexivity).
  assert (H4 : previewMessage (set_selectedRole (Some staff) (new_session "hello" None))
               = None) by reflexivity.
  assert (H5 : selectedRole (set_selectedRole (Some staff) (new_session "hello" None))
               = Some staff) by reflexivity.
  pose proof (confirm_without_preview_keeps_session support unrendered_with_role
                press_confirm 0 _ staff H1 H2 H3 H4 H5) as Hconfirm.
  cbv zeta in Hconfirm. destruct Hconfirm as (Hthrew & _ & _ & Hstore).
  exact (conj H5 (conj Hthrew Hstore)).
Defined.

Lemma chunkArray_canonical_witness :
  0 < 25 /\
  chunkArray (seq 0 60) 25 !! 2 = Some (seq 50 10) /\
  length (seq 50 10) = length (seq 0 60) - 2 * 25.
Proof.
  assert (H1 : 0 < 25) by lia.
  assert (H2 : chunkArray (seq 0 60) 25 !! 2 = Some (seq 50 10)) by reflexivity.
  assert (H3 : 2 + 1 = length (chunkArray (seq 0 60) 25)) by reflexivity.
  destruct (proj2 (chunkArray_canonical (seq 0 60) 25 H1) 2 (seq 50 10) H2)
    as (_ & _ & _ & Hlast).
  exact (conj H1 (conj H2 (Hlast H3))).
Defined.


Lemma editing_reachable : reachable support editing.
Proof. apply reachable_step, reachable_step, reachable_step, reachable_initial. Qed.

Lemma sessions_are_never_shared_witness :
  reachable support editing /\
  In pending_collector (collectors editing) /\
  session_at editing "42" (col_state pending_collector) session1 /\
  "42" = col_authorId pending_collector.
Proof.
  assert (H1 : reachable support editing) by exact editing_reachable.
  assert (H2 : In pending_collector (collectors editing)) by (left; reflexivity).
  assert (H3 : session_at editing "42" (col_state pending_collector) session1)
    by (split; reflexivity).
  exact (conj H1 (conj H2 (conj H3
           (proj2 (proj2 (proj2 (sessions_are_never_shared support editing H1))
                     pending_collector H2) "42" session1 H3)))).
Defined.

Lemma no_cross_talk_witness :
  reachable support editing /\
  "42" <> author_of (InteractionCreate stranger_slash_message) /\
  session_at
    (out_world (step support editing (InteractionCreate stranger_slash_message)))
    "42" 0 session1.
Proof.
  assert (H1 : reachable support editing) by exact editing_reachable.
  assert (H2 : "42" <> author_of (InteractionCreate stranger_slash_message))
    by discriminate.
  assert (H3 : session_at editing "42" 0 session1) by (split; reflexivity).
  exact (conj H1 (conj H2
           (proj1 (no_cross_talk support editing (InteractionCreate stranger_slash_message)
                     "42" H1 H2) 0 session1 H3))).
Defined.

Lemma registered_commands_are_answered_witness :
  In "cancel" (map cmd_name commands) /\
  responses (out_trace (on_interactionCreate support slash_cancel editing)) = 1 /\
  ~ In "ping" (map cmd_name commands) /\
  on_interactionCreate support slash_unknown editing =
    {| out_world := editing; out_trace := []; out_threw := false |}.
Proof.
  assert (H1 : i_type slash_cancel = ChatInputCommand "cancel" "") by reflexivity.
  assert (H2 : In "cancel" (map cmd_name commands)) by (right; left; reflexivity).
  assert (H3 : i_type slash_unknown = ChatInputCommand "ping" "") by reflexivity.
  assert (H4 : ~ In "ping" (map cmd_name commands)).
  { intros [H | [H | [H | []]]]; discriminate. }
  exact (conj H2 (conj
           (proj1 (registered_commands_are_answered support editing slash_cancel
                     "cancel" "" H1) H2)
           (conj H4
              (proj2 (registered_commands_are_answered support editing slash_unknown
                        "ping" "" H3) H4)))).
Defined.

Lemma button_answered_at_most_once_witness :
  i_type press_confirm = ButtonPress "confirm_send_42" /\
  responses (out_trace (on_interactionCreate support press_confirm awaiting_confirmation))
    <= 1.
Proof.
  assert (H1 : i_type press_confirm = ButtonPress "confirm_send_42") by reflexivity.
  exact (conj H1
           (button_answered_at_most_once support awaiting_confirmation press_confirm
              "confirm_send_42" H1)).
Defined.


Lemma report_all_delivered_witness :
  Forall (reachable_member press_confirm "hello") (role_members loner) /\
  description
    (resultEmbed "hello" loner
       (tally (map (send_result press_confirm "hello") (role_members loner))))
    = allDeliveredText /\
  ~ Forall (reachable_member press_confirm "hello") (role_members staff) /\
  1 < length
        (fields
           (resultEmbed "hello" staff
              (tally (map (send_result press_confirm "hello") (role_members staff))))).
Proof.
  assert (H1 : Forall (reachable_member press_confirm "hello") (role_members loner))
    by (repeat constructor).
  assert (H2 : ~ Forall (reachable_member press_confirm "hello") (role_members staff)).
  { intros H. inversion H as [|? ? [Hbot _] _]. discriminate. }
  assert (H3 : embed_ok
                 (resultEmbed "hello" loner
                    (tally (map (send_result press_confirm "hello") (role_members loner))))
               = true) by (vm_compute; reflexivity).
  assert (H4 : embed_ok
                 (resultEmbed "hello" staff
                    (tally (map (send_result press_confirm "hello") (role_members staff))))
               = true) by (vm_compute; reflexivity).
  pose proof (report_all_delivered press_confirm "hello" loner H3) as Hloner.
  pose proof (report_all_delivered press_confirm "hello" staff H4) as Hstaff.
  cbv zeta in Hloner, Hstaff.
  destruct Hloner as (_ & _ & Hall & _). destruct Hstaff as (_ & _ & _ & Hsome).
  exact (conj H1 (conj (proj1 (Hall H1)) (conj H2 (proj2 (proj2 (Hsome H2)))))).
Defined.

Lemma report_chunks_when_built_witness :
  (tally_failedUsers sixty_failed <> [] /\
   embed_ok (resultEmbed "hello" staff sixty_failed) = true /\
   length (tally_failedUsers sixty_failed) = 60 /\
   map field_name (failedUserFields (tally_failedUsers sixty_failed)) =
     [ "🚨 Users who didn't receive the message (1/3)";
       "🚨 Users who didn't receive the message (2/3)";
       "🚨 Users who didn't receive the message (3/3)" ]) /\
  (tally_failedUsers (tally staff_results) = ["m1#0001"; "m3#0003"] /\
   map field_value (failedUserFields ["m1#0001"; "m3#0003"]) =
     ["• m1#0001
• m3#0003"] /\
   map field_name (failedUserFields ["m1#0001"; "m3#0003"]) =
     ["🚨 Users who didn't receive the message"]).
Proof.
  split.
  - assert (H1 : tally_failedUsers sixty_failed <> []) by discriminate.
    assert (H2 : embed_ok (resultEmbed "hello" staff sixty_failed) = true)
      by (vm_compute; reflexivity).
    assert (H3 : length (tally_failedUsers sixty_failed) = 60) by reflexivity.
    pose proof (report_chunks_when_built "hello" staff sixty_failed H1 H2) as Hreport.
    cbv zeta in Hreport.
    destruct Hreport as (_ & _ & _ & _ & _ & _ & _ & _ & _ & _ & Hsixty).
    exact (conj H1 (conj H2 (conj H3 (Hsixty H3)))).
  - assert (H0 : tally_failedUsers (tally staff_results) = ["m1#0001"; "m3#0003"])
      by reflexivity.
    assert (H1 : tally_failedUsers (tally staff_results) <> []) by discriminate.
    assert (H2 : embed_ok (resultEmbed "hello" staff (tally staff_results)) = true)
      by (vm_compute; reflexivity).
    pose proof (report_chunks_when_built "hello" staff (tally staff_results) H1 H2)
      as Hreport.
    cbv zeta in Hreport.
    destruct Hreport as (_ & _ & _ & _ & _ & _ & Hvalues & _ & Hnames & _).
    exact (conj H0 (conj Hvalues Hnames)).
Defined.


End MoreWalkthrough.
